(** * Unposted audio journal: the recording session, the processing client
      and the journal store of [assets/js/app.js]

    The script is one closure over a handful of mutable variables
    ([mediaRecorder], [audioChunks], [startTime], [pausedTime], the three
    flags [isRecording], [isPaused], [isCancelled]), the page it is loaded in
    and the browser's [localStorage].  Every handler is embedded as a
    computation in a small state-and-exception monad over a record holding
    those variables, so that each definition can be read next to the function
    of the same name.

    Conventions.
    - Strings are UTF-8 byte strings.
    - [Date.now()] is an integer number of milliseconds ([Z]).
    - A value produced by [JSON.parse] is a [JValue]; [undefined] is the
      [None] of [option JValue].  JSON text is represented by the value it
      denotes: what [JSON.stringify] writes and [JSON.parse] reads back is
      the value itself, without the properties whose value is [undefined].
    - What the browser decides (the clock, the microphone permission, the
      recorded data, the server's answer, the answers to [confirm]) is an
      argument of the handler that asks for it. *)

From Stdlib Require Import String Ascii List ZArith QArith Bool Arith Lia.
From Stdlib Require Import RelationClasses.
From Stdlib Require Import DecimalString.
Import ListNotations.

Set Warnings "-register-all".

Local Close Scope Q_scope.
Local Open Scope string_scope.
Local Open Scope list_scope.

(* ================================================================== *)
(** * Strings *)
(* ================================================================== *)

Module Str.

Definition chr (n : nat) : string := String (ascii_of_nat n) "".

(** The line feed of the ["\n"] escapes. *)
Definition LF : string := chr 10.

(** [String(n)] for a non-negative integer. *)
Definition ofNat (n : nat) : string :=
  NilZero.string_of_uint (Nat.to_uint n).

(** [String(z)] for an integer. *)
Definition ofZ (z : Z) : string :=
  NilZero.string_of_int (Z.to_int z).

Fixpoint replicate (n : nat) (s : string) : string :=
  match n with
  | O => ""
  | S k => s ++ replicate k s
  end.

(** [s.padStart(n, '0')]. *)
Definition padStart0 (n : nat) (s : string) : string :=
  replicate (n - String.length s) "0" ++ s.

Fixpoint rev_acc (s acc : string) : string :=
  match s with
  | "" => acc
  | String c r => rev_acc r (String c acc)
  end.

Definition rev (s : string) : string := rev_acc s "".

Fixpoint stripPrefix (p s : string) : option string :=
  match p, s with
  | "", _ => Some s
  | String a p', String b s' =>
      if Ascii.eqb a b then stripPrefix p' s' else None
  | String _ _, "" => None
  end.

Definition utf8 (bytes : list nat) : string :=
  fold_right (fun b acc => String (ascii_of_nat b) acc) "" bytes.

(** ECMAScript's WhiteSpace and LineTerminator code points, UTF-8 encoded:
    TAB, LF, VT, FF, CR, SP, U+00A0, U+1680, U+2000..U+200A, U+2028,
    U+2029, U+202F, U+205F, U+3000, U+FEFF. *)
Definition whiteSpace : list string :=
  map utf8
    [ [9]; [10]; [11]; [12]; [13]; [32];
      [194; 160]; [225; 154; 128];
      [226; 128; 128]; [226; 128; 129]; [226; 128; 130]; [226; 128; 131];
      [226; 128; 132]; [226; 128; 133]; [226; 128; 134]; [226; 128; 135];
      [226; 128; 136]; [226; 128; 137]; [226; 128; 138];
      [226; 128; 168]; [226; 128; 169]; [226; 128; 175];
      [226; 129; 159]; [227; 128; 128]; [239; 187; 191] ].

Fixpoint stripOne (ws : list string) (s : string) : option string :=
  match ws with
  | [] => None
  | w :: ws' =>
      match stripPrefix w s with
      | Some r => Some r
      | None => stripOne ws' s
      end
  end.

Fixpoint stripAll (fuel : nat) (ws : list string) (s : string) : string :=
  match fuel with
  | O => s
  | S k =>
      match stripOne ws s with
      | Some r => stripAll k ws r
      | None => s
      end
  end.

Definition trimStart (s : string) : string :=
  stripAll (String.length s) whiteSpace s.

Definition trimEnd (s : string) : string :=
  rev (stripAll (String.length s) (map rev whiteSpace) (rev s)).

(** [s.trim()]. *)
Definition trim (s : string) : string := trimEnd (trimStart s).

Definition isEmpty (s : string) : bool :=
  match s with "" => true | _ => false end.

(** ASCII whitespace, the separators of a DOM token list. *)
Definition isAsciiSpace (c : ascii) : bool :=
  let n := nat_of_ascii c in
  (n =? 9)%nat || (n =? 10)%nat || (n =? 12)%nat || (n =? 13)%nat
  || (n =? 32)%nat.

Fixpoint hasAsciiSpace (s : string) : bool :=
  match s with
  | "" => false
  | String c r => isAsciiSpace c || hasAsciiSpace r
  end.

(** [s.split(c)[0]]. *)
Fixpoint beforeChar (c : ascii) (s : string) : string :=
  match s with
  | "" => ""
  | String a r => if Ascii.eqb a c then "" else String a (beforeChar c r)
  end.

Fixpoint join (sep : string) (l : list string) : string :=
  match l with
  | [] => ""
  | [x] => x
  | x :: r => x ++ sep ++ join sep r
  end.

End Str.

(* ================================================================== *)
(** * JSON values and the JavaScript operations the script applies to them *)
(* ================================================================== *)

Inductive JValue : Type :=
| JNull
| JBool (b : bool)
| JNum (q : Q)
| JStr (s : string)
| JArr (items : list JValue)
| JObj (props : list (string * JValue)).

(** What the browser, not the script, decides about values: how a number
    prints, which local calendar day [new Date(x)] falls on, and the text
    of the errors the engine itself raises. *)
Record Host : Type := mkHost {
  numberToString : Q -> string;
  (** [`${d.getFullYear()}-${...}-${...}`] for [d = new Date(x)] *)
  localDay : option JValue -> string;
  (** reading property [k] of [null] *)
  nullReadMessage : string -> string;
  (** calling a method that the receiver does not have *)
  notAFunctionMessage : string -> string;
  (** [classList.add] of an empty token or of one holding whitespace *)
  badTokenMessage : string -> string
}.

Module Js.

Fixpoint lookup (k : string) (props : list (string * JValue))
  : option JValue :=
  match props with
  | [] => None
  | (k', v) :: r => if String.eqb k k' then Some v else lookup k r
  end.

(** Truthiness: what [!v] and [v || w] test.  [undefined], [null],
    [false], [0] and the empty string are falsy. *)
Definition truthy (v : option JValue) : bool :=
  match v with
  | None => false
  | Some JNull => false
  | Some (JBool b) => b
  | Some (JNum q) => negb (Qeq_bool q 0)
  | Some (JStr s) => negb (Str.isEmpty s)
  | Some (JArr _) => true
  | Some (JObj _) => true
  end.

(** ToString, as [new Error(v)] and [classList.add(v)] apply it. *)
Fixpoint toString (h : Host) (v : JValue) : string :=
  match v with
  | JNull => "null"
  | JBool true => "true"
  | JBool false => "false"
  | JNum q => numberToString h q
  | JStr s => s
  | JArr items =>
      Str.join ","
        (map (fun x => match x with
                       | JNull => ""
                       | _ => toString h x
                       end) items)
  | JObj _ => "[object Object]"
  end.

End Js.

(* ================================================================== *)
(** * The page and the browser objects the script holds *)
(* ================================================================== *)

(** The keys of the [views] table. *)
Inductive View : Type := landing | recording | processing | insights | settings.

(** The markup of the page is not part of the script: which of the
    elements the script looks up are there is a parameter.  The buttons are
    not listed: a handler runs only when the button it is attached to
    exists. *)
Record Page : Type := mkPage {
  (** [views[name]] is an element *)
  hasView : View -> bool;
  (** [document.querySelector('.timer')] *)
  timerElement : bool;
  (** [document.querySelector('.custom-starter')] *)
  customStarter : bool;
  (** [document.querySelector('.reflection-bullets')] *)
  reflectionList : bool;
  (** [document.querySelector('.calendar-view')] *)
  calendarView : bool
}.

(** [MediaRecorder.state]. *)
Inductive RecordingState : Type := inactive | rec_recording | rec_paused.

(** A [MediaRecorder] on the microphone stream.  [stopQueued] is the task
    that [stop()] queues: it fires [dataavailable] with everything recorded
    and then [stop]; [start()] is called without a time slice, so no
    [dataavailable] fires before.  [tracksLive] is the stream: the
    microphone is held until its tracks are stopped. *)
Record MediaRecorder : Type := mkRecorder {
  recState : RecordingState;
  stopQueued : bool;
  tracksLive : bool
}.

(** Binary data: a chunk, or the blob made of the chunks. *)
Definition Blob : Type := string.

(** [pauseButton.innerHTML]: the icon [fa-pause] or [fa-play]. *)
Inductive Icon : Type := faPause | faPlay.

Record StarterOption : Type := mkStarter {
  textContent : string;
  (** the element carries the class [selected] *)
  selectedClass : bool
}.

(** The form data posted to [/api/process]. *)
Record Request : Type := mkRequest {
  reqAudio : Blob;
  reqTopic : string
}.

Record Download : Type := mkDownload {
  fileName : string;
  mimeType : string;
  (** the JSON document, as the value it denotes *)
  content : JValue
}.

Inductive Error : Type := mkError (message : string).

Definition messageOf (e : Error) : string :=
  match e with mkError m => m end.

(** What [navigator.mediaDevices.getUserMedia] resolves to. *)
Inductive UserMedia : Type :=
| Stream
| Refused (reason : Error).

(** What [response.json()] resolves to. *)
Inductive Body : Type :=
| Json (v : JValue)
| NotJson (syntaxError : Error).

(** What [fetch] resolves to. *)
Inductive FetchResult : Type :=
| Rejected (reason : Error)
| Responded (status : nat) (body : Body).

(** [response.ok]. *)
Definition ok (status : nat) : bool :=
  (200 <=? status)%nat && (status <=? 299)%nat.

(* ================================================================== *)
(** * The variables of the script *)
(* ================================================================== *)

Record State : Type := mkState {
  (** the view container carrying the class [active], if any *)
  view : option View;
  (** [let mediaRecorder;] *)
  mediaRecorder : option MediaRecorder;
  (** [let audioChunks = [];] *)
  audioChunks : list Blob;
  (** [let audioBlob;] *)
  audioBlob : option Blob;
  (** [let audioUrl;] *)
  audioUrl : option string;
  (** [let startTime;] (read only after [startRecording] wrote it) *)
  startTime : Z;
  (** [let pausedTime = 0;] *)
  pausedTime : Z;
  (** whether the interval of [startTimer] is scheduled *)
  timerInterval : bool;
  (** [let isRecording = false;] *)
  isRecording : bool;
  (** [let isPaused = false;] *)
  isPaused : bool;
  (** [let isCancelled = false;] *)
  isCancelled : bool;
  (** [timerElement.textContent] *)
  timerText : string;
  (** [pauseButton.innerHTML] *)
  pauseButtonIcon : Icon;
  (** the [.starter-option] elements, in document order *)
  starterOptions : list StarterOption;
  (** [customStarter.value] *)
  customStarterValue : string;
  (** the journal days the calendar was last drawn with *)
  calendarDays : list string;
  (** [localStorage], key ['journalEntries'] *)
  journalEntries : option (list JValue);
  (** the messages shown by [alert], oldest first *)
  alerts : list string;
  (** the questions asked by [confirm], oldest first *)
  confirms : list string;
  (** the requests sent by [fetch], oldest first *)
  requests : list Request;
  (** the files handed to the browser by [link.click()] *)
  downloads : list Download
}.

Definition set_view (x : option View) (s : State) : State :=
  mkState x (mediaRecorder s) (audioChunks s) (audioBlob s) (audioUrl s)
    (startTime s) (pausedTime s) (timerInterval s) (isRecording s)
    (isPaused s) (isCancelled s) (timerText s) (pauseButtonIcon s)
    (starterOptions s) (customStarterValue s) (calendarDays s)
    (journalEntries s) (alerts s) (confirms s) (requests s) (downloads s).

Definition set_mediaRecorder (x : option MediaRecorder) (s : State) : State :=
  mkState (view s) x (audioChunks s) (audioBlob s) (audioUrl s)
    (startTime s) (pausedTime s) (timerInterval s) (isRecording s)
    (isPaused s) (isCancelled s) (timerText s) (pauseButtonIcon s)
    (starterOptions s) (customStarterValue s) (calendarDays s)
    (journalEntries s) (alerts s) (confirms s) (requests s) (downloads s).

Definition set_audioChunks (x : list Blob) (s : State) : State :=
  mkState (view s) (mediaRecorder s) x (audioBlob s) (audioUrl s)
    (startTime s) (pausedTime s) (timerInterval s) (isRecording s)
    (isPaused s) (isCancelled s) (timerText s) (pauseButtonIcon s)
    (starterOptions s) (customStarterValue s) (calendarDays s)
    (journalEntries s) (alerts s) (confirms s) (requests s) (downloads s).

Definition set_audioBlob (x : option Blob) (s : State) : State :=
  mkState (view s) (mediaRecorder s) (audioChunks s) x (audioUrl s)
    (startTime s) (pausedTime s) (timerInterval s) (isRecording s)
    (isPaused s) (isCancelled s) (timerText s) (pauseButtonIcon s)
    (starterOptions s) (customStarterValue s) (calendarDays s)
    (journalEntries s) (alerts s) (confirms s) (requests s) (downloads s).

Definition set_audioUrl (x : option string) (s : State) : State :=
  mkState (view s) (mediaRecorder s) (audioChunks s) (audioBlob s) x
    (startTime s) (pausedTime s) (timerInterval s) (isRecording s)
    (isPaused s) (isCancelled s) (timerText s) (pauseButtonIcon s)
    (starterOptions s) (customStarterValue s) (calendarDays s)
    (journalEntries s) (alerts s) (confirms s) (requests s) (downloads s).

Definition set_startTime (x : Z) (s : State) : State :=
  mkState (view s) (mediaRecorder s) (audioChunks s) (audioBlob s)
    (audioUrl s) x (pausedTime s) (timerInterval s) (isRecording s)
    (isPaused s) (isCancelled s) (timerText s) (pauseButtonIcon s)
    (starterOptions s) (customStarterValue s) (calendarDays s)
    (journalEntries s) (alerts s) (confirms s) (requests s) (downloads s).

Definition set_pausedTime (x : Z) (s : State) : State :=
  mkState (view s) (mediaRecorder s) (audioChunks s) (audioBlob s)
    (audioUrl s) (startTime s) x (timerInterval s) (isRecording s)
    (isPaused s) (isCancelled s) (timerText s) (pauseButtonIcon s)
    (starterOptions s) (customStarterValue s) (calendarDays s)
    (journalEntries s) (alerts s) (confirms s) (requests s) (downloads s).

Definition set_timerInterval (x : bool) (s : State) : State :=
  mkState (view s) (mediaRecorder s) (audioChunks s) (audioBlob s)
    (audioUrl s) (startTime s) (pausedTime s) x (isRecording s) (isPaused s)
    (isCancelled s) (timerText s) (pauseButtonIcon s) (starterOptions s)
    (customStarterValue s) (calendarDays s) (journalEntries s) (alerts s)
    (confirms s) (requests s) (downloads s).

Definition set_isRecording (x : bool) (s : State) : State :=
  mkState (view s) (mediaRecorder s) (audioChunks s) (audioBlob s)
    (audioUrl s) (startTime s) (pausedTime s) (timerInterval s) x
    (isPaused s) (isCancelled s) (timerText s) (pauseButtonIcon s)
    (starterOptions s) (customStarterValue s) (calendarDays s)
    (journalEntries s) (alerts s) (confirms s) (requests s) (downloads s).

Definition set_isPaused (x : bool) (s : State) : State :=
  mkState (view s) (mediaRecorder s) (audioChunks s) (audioBlob s)
    (audioUrl s) (startTime s) (pausedTime s) (timerInterval s)
    (isRecording s) x (isCancelled s) (timerText s) (pauseButtonIcon s)
    (starterOptions s) (customStarterValue s) (calendarDays s)
    (journalEntries s) (alerts s) (confirms s) (requests s) (downloads s).

Definition set_isCancelled (x : bool) (s : State) : State :=
  mkState (view s) (mediaRecorder s) (audioChunks s) (audioBlob s)
    (audioUrl s) (startTime s) (pausedTime s) (timerInterval s)
    (isRecording s) (isPaused s) x (timerText s) (pauseButtonIcon s)
    (starterOptions s) (customStarterValue s) (calendarDays s)
    (journalEntries s) (alerts s) (confirms s) (requests s) (downloads s).

Definition set_timerText (x : string) (s : State) : State :=
  mkState (view s) (mediaRecorder s) (audioChunks s) (audioBlob s)
    (audioUrl s) (startTime s) (pausedTime s) (timerInterval s)
    (isRecording s) (isPaused s) (isCancelled s) x (pauseButtonIcon s)
    (starterOptions s) (customStarterValue s) (calendarDays s)
    (journalEntries s) (alerts s) (confirms s) (requests s) (downloads s).

Definition set_pauseButtonIcon (x : Icon) (s : State) : State :=
  mkState (view s) (mediaRecorder s) (audioChunks s) (audioBlob s)
    (audioUrl s) (startTime s) (pausedTime s) (timerInterval s)
    (isRecording s) (isPaused s) (isCancelled s) (timerText s) x
    (starterOptions s) (customStarterValue s) (calendarDays s)
    (journalEntries s) (alerts s) (confirms s) (requests s) (downloads s).

Definition set_starterOptions (x : list StarterOption) (s : State) : State :=
  mkState (view s) (mediaRecorder s) (audioChunks s) (audioBlob s)
    (audioUrl s) (startTime s) (pausedTime s) (timerInterval s)
    (isRecording s) (isPaused s) (isCancelled s) (timerText s)
    (pauseButtonIcon s) x (customStarterValue s) (calendarDays s)
    (journalEntries s) (alerts s) (confirms s) (requests s) (downloads s).

Definition set_customStarterValue (x : string) (s : State) : State :=
  mkState (view s) (mediaRecorder s) (audioChunks s) (audioBlob s)
    (audioUrl s) (startTime s) (pausedTime s) (timerInterval s)
    (isRecording s) (isPaused s) (isCancelled s) (timerText s)
    (pauseButtonIcon s) (starterOptions s) x (calendarDays s)
    (journalEntries s) (alerts s) (confirms s) (requests s) (downloads s).

Definition set_calendarDays (x : list string) (s : State) : State :=
  mkState (view s) (mediaRecorder s) (audioChunks s) (audioBlob s)
    (audioUrl s) (startTime s) (pausedTime s) (timerInterval s)
    (isRecording s) (isPaused s) (isCancelled s) (timerText s)
    (pauseButtonIcon s) (starterOptions s) (customStarterValue s) x
    (journalEntries s) (alerts s) (confirms s) (requests s) (downloads s).

Definition set_journalEntries (x : option (list JValue)) (s : State) : State :=
  mkState (view s) (mediaRecorder s) (audioChunks s) (audioBlob s)
    (audioUrl s) (startTime s) (pausedTime s) (timerInterval s)
    (isRecording s) (isPaused s) (isCancelled s) (timerText s)
    (pauseButtonIcon s) (starterOptions s) (customStarterValue s)
    (calendarDays s) x (alerts s) (confirms s) (requests s) (downloads s).

Definition set_alerts (x : list string) (s : State) : State :=
  mkState (view s) (mediaRecorder s) (audioChunks s) (audioBlob s)
    (audioUrl s) (startTime s) (pausedTime s) (timerInterval s)
    (isRecording s) (isPaused s) (isCancelled s) (timerText s)
    (pauseButtonIcon s) (starterOptions s) (customStarterValue s)
    (calendarDays s) (journalEntries s) x (confirms s) (requests s)
    (downloads s).

Definition set_confirms (x : list string) (s : State) : State :=
  mkState (view s) (mediaRecorder s) (audioChunks s) (audioBlob s)
    (audioUrl s) (startTime s) (pausedTime s) (timerInterval s)
    (isRecording s) (isPaused s) (isCancelled s) (timerText s)
    (pauseButtonIcon s) (starterOptions s) (customStarterValue s)
    (calendarDays s) (journalEntries s) (alerts s) x (requests s)
    (downloads s).

Definition set_requests (x : list Request) (s : State) : State :=
  mkState (view s) (mediaRecorder s) (audioChunks s) (audioBlob s)
    (audioUrl s) (startTime s) (pausedTime s) (timerInterval s)
    (isRecording s) (isPaused s) (isCancelled s) (timerText s)
    (pauseButtonIcon s) (starterOptions s) (customStarterValue s)
    (calendarDays s) (journalEntries s) (alerts s) (confirms s) x
    (downloads s).

Definition set_downloads (x : list Download) (s : State) : State :=
  mkState (view s) (mediaRecorder s) (audioChunks s) (audioBlob s)
    (audioUrl s) (startTime s) (pausedTime s) (timerInterval s)
    (isRecording s) (isPaused s) (isCancelled s) (timerText s)
    (pauseButtonIcon s) (starterOptions s) (customStarterValue s)
    (calendarDays s) (journalEntries s) (alerts s) (confirms s) (requests s)
    x.

(* ================================================================== *)
(** * Computations: state and exceptions *)
(* ================================================================== *)

Inductive Completion (A : Type) : Type :=
| Normal (a : A)
| Thrown (e : Error).

Arguments Normal {A} a.
Arguments Thrown {A} e.

Definition Script (A : Type) : Type := State -> Completion A * State.

Definition ret {A : Type} (a : A) : Script A := fun s => (Normal a, s).

Definition bind {A B : Type} (m : Script A) (k : A -> Script B) : Script B :=
  fun s =>
    match m s with
    | (Normal a, s') => k a s'
    | (Thrown e, s') => (Thrown e, s')
    end.

(** [throw e]. *)
Definition throw {A : Type} (e : Error) : Script A := fun s => (Thrown e, s).

(** [try { m } catch (error) { h error }]. *)
Definition tryCatch {A : Type} (m : Script A) (h : Error -> Script A)
  : Script A :=
  fun s =>
    match m s with
    | (Normal a, s') => (Normal a, s')
    | (Thrown e, s') => h e s'
    end.

Definition state : Script State := fun s => (Normal s, s).

Definition update (f : State -> State) : Script unit :=
  fun s => (Normal tt, f s).

Declare Scope script_scope.
Delimit Scope script_scope with script.
Bind Scope script_scope with Script.

Notation "x <- m ;; k" := (bind m (fun x => k))
  (at level 61, m at next level, right associativity) : script_scope.
Notation "m ;; k" := (bind m (fun _ => k))
  (at level 61, right associativity) : script_scope.

Local Open Scope script_scope.

Definition skip : Script unit := ret tt.

(** [if (b) { m }]. *)
Definition when (b : bool) (m : Script unit) : Script unit :=
  if b then m else skip.

(** [l.forEach(f)]. *)
Fixpoint forEach {A : Type} (l : list A) (f : A -> Script unit)
  : Script unit :=
  match l with
  | [] => skip
  | a :: r => f a ;; forEach r f
  end.

(** [l.map(f)]. *)
Fixpoint mapM {A B : Type} (f : A -> Script B) (l : list A)
  : Script (list B) :=
  match l with
  | [] => ret []
  | a :: r => b <- f a ;; bs <- mapM f r ;; ret (b :: bs)
  end.

(** The state a handler leaves behind, whether it returned or threw. *)
Definition exec {A : Type} (m : Script A) (s : State) : State := snd (m s).

(** How a handler ended. *)
Definition outcome {A : Type} (m : Script A) (s : State) : Completion A :=
  fst (m s).

(* ================================================================== *)
(** * The script *)
(* ================================================================== *)

(** The text of the alert in the [catch] of [displayInsights]. *)
Definition displayAlert (message : string) : string :=
  "There was an error processing the response. Please try again."
  ++ Str.LF ++ Str.LF ++ "Error: " ++ message.

(** The text of the alert in the [catch] of [processAudio]. *)
Definition processAlert (message : string) : string :=
  "Sorry, there was an error processing your audio. Please try again."
  ++ Str.LF ++ Str.LF ++ "Error: " ++ message.

Section App.

Variable host : Host.
Variable page : Page.

(** ** Small steps shared by the handlers *)

(** [!x] is false: the variable holds an object. *)
Definition isDefined {A : Type} (x : option A) : bool :=
  match x with Some _ => true | None => false end.

(** [alert(text)]. *)
Definition alert (text : string) : Script unit :=
  update (fun s => set_alerts (alerts s ++ [text]) s).

(** [confirm(text)], answered by the user with [answer]. *)
Definition confirm (text : string) (answer : bool) : Script bool :=
  update (fun s => set_confirms (confirms s ++ [text]) s) ;;
  ret answer.

(** [v.k], for the property names the script reads ([transcript],
    [bullets], [emotion], [nextPrompt], [error], [date], [topic], [text],
    [type]): none of them is defined on a prototype, so only an object
    can have them; reading a property of [null] throws. *)
Definition getProp (v : JValue) (k : string) : Script (option JValue) :=
  match v with
  | JNull => throw (mkError (nullReadMessage host k))
  | JObj props => ret (Js.lookup k props)
  | _ => ret None
  end.

(** An object literal as [JSON.stringify] writes it: a property whose
    value is [undefined] is left out. *)
Fixpoint stringifyProps (props : list (string * option JValue))
  : list (string * JValue) :=
  match props with
  | [] => []
  | (k, Some v) :: r => (k, v) :: stringifyProps r
  | (_, None) :: r => stringifyProps r
  end.

Definition stringifyObject (props : list (string * option JValue))
  : JValue :=
  JObj (stringifyProps props).

(** [JSON.parse(localStorage.getItem('journalEntries') || '[]')]. *)
Definition readEntries (s : State) : list JValue :=
  match journalEntries s with
  | Some entries => entries
  | None => []
  end.

(** ** The [MediaRecorder] methods (W3C MediaStream Recording) *)

Definition recorder_start (r : MediaRecorder) : option MediaRecorder :=
  match recState r with
  | inactive => Some (mkRecorder rec_recording (stopQueued r) (tracksLive r))
  | _ => None
  end.

Definition recorder_pause (r : MediaRecorder) : option MediaRecorder :=
  match recState r with
  | inactive => None
  | rec_paused => Some r
  | rec_recording => Some (mkRecorder rec_paused (stopQueued r) (tracksLive r))
  end.

Definition recorder_resume (r : MediaRecorder) : option MediaRecorder :=
  match recState r with
  | inactive => None
  | rec_recording => Some r
  | rec_paused => Some (mkRecorder rec_recording (stopQueued r) (tracksLive r))
  end.

Definition recorder_stop (r : MediaRecorder) : option MediaRecorder :=
  match recState r with
  | inactive => Some r
  | _ => Some (mkRecorder inactive true (tracksLive r))
  end.

(** [stream.getTracks().forEach(track => track.stop())]. *)
Definition stopTracks (r : MediaRecorder) : option MediaRecorder :=
  Some (mkRecorder (recState r) (stopQueued r) false).

(** [mediaRecorder.m()]: [None] from the method is its
    [InvalidStateError]. *)
Definition callRecorder (name : string)
    (method : MediaRecorder -> option MediaRecorder) : Script unit :=
  s <- state ;;
  match mediaRecorder s with
  | None => throw (mkError (nullReadMessage host name))
  | Some r =>
      match method r with
      | Some r' => update (set_mediaRecorder (Some r'))
      | None => throw (mkError "InvalidStateError")
      end
  end.

(** ** View management *)

Definition showView (viewName : View) : Script unit :=
  update (set_view (if hasView page viewName then Some viewName else None)).

(** ** Timer functions *)

(** The constant [elapsed] of [updateTimer]. *)
Definition elapsed (now : Z) (s : State) : Z :=
  if isPaused s then (pausedTime s - startTime s)%Z
  else (now - startTime s)%Z.

(** The [MM:SS] text for an elapsed time in milliseconds. *)
Definition display (ms : Z) : string :=
  let totalSeconds := (ms / 1000)%Z in
  let minutes := (totalSeconds / 60)%Z in
  let seconds := Z.rem totalSeconds 60 in
  Str.padStart0 2 (Str.ofZ minutes) ++ ":" ++ Str.padStart0 2 (Str.ofZ seconds).

Definition updateTimer (now : Z) : Script unit :=
  s <- state ;;
  if negb (isRecording s) || negb (timerElement page) then skip
  else update (set_timerText (display (elapsed now s))).

Definition startTimer (now : Z) : Script unit :=
  updateTimer now ;;
  update (set_timerInterval true).

(** [clearInterval(timerInterval)]. *)
Definition clearTimer : Script unit := update (set_timerInterval false).

(** ** Topic: the starter options and the free text *)

Definition deselect (o : StarterOption) : StarterOption :=
  mkStarter (textContent o) false.

Fixpoint selectNth (i : nat) (l : list StarterOption) : list StarterOption :=
  match l, i with
  | [], _ => []
  | o :: r, O => mkStarter (textContent o) true :: r
  | o :: r, S k => o :: selectNth k r
  end.

(** The click listener of the [i]-th starter option. *)
Definition clickStarter (i : nat) : Script unit :=
  s <- state ;;
  if (i <? length (starterOptions s))%nat then
    update (fun s => set_starterOptions (map deselect (starterOptions s)) s) ;;
    update (fun s => set_starterOptions (selectNth i (starterOptions s)) s) ;;
    when (customStarter page) (update (set_customStarterValue ""))
  else skip.

(** The input listener of the free-text field, after the user made
    its value [value]. *)
Definition inputCustomStarter (value : string) : Script unit :=
  when (customStarter page)
    (update (set_customStarterValue value) ;;
     when (negb (Str.isEmpty value))
       (update (fun s =>
                  set_starterOptions (map deselect (starterOptions s)) s))).

(** [document.querySelector('.starter-option.selected')]. *)
Definition selectedOption (s : State) : option StarterOption :=
  find selectedClass (starterOptions s).

(** The topic that [processAudio] determines. *)
Definition resolveTopic (s : State) : string :=
  match selectedOption s with
  | Some o => Str.trim (textContent o)
  | None =>
      if customStarter page
         && negb (Str.isEmpty (Str.trim (customStarterValue s)))
      then Str.trim (customStarterValue s)
      else "General reflection"
  end.

(** ** Local storage functions *)

Definition saveJournalEntry (entry : list (string * option JValue))
  : Script unit :=
  update (fun s =>
            set_journalEntries
              (Some (readEntries s ++ [stringifyObject entry])) s).

Definition getJournalDays : Script (list string) :=
  s <- state ;;
  mapM (fun entry => d <- getProp entry "date" ;; ret (localDay host d))
       (readEntries s).

(** ** Calendar rendering: only the journal days it is drawn with *)

Definition initCalendar : Script unit :=
  if negb (calendarView page) then skip
  else
    update (set_calendarDays []) ;;
    journalDays <- getJournalDays ;;
    update (set_calendarDays journalDays).

(** ** Recording functions *)

Definition startRecording (media : UserMedia) (now now' : Z)
  : Script unit :=
  tryCatch
    (match media with
     | Refused reason => throw reason
     | Stream =>
         update (set_mediaRecorder (Some (mkRecorder inactive false true))) ;;
         update (set_audioChunks []) ;;
         (* the two listeners are [onDataAvailable] and [onStop] below *)
         callRecorder "start" recorder_start ;;
         update (set_isRecording true) ;;
         update (set_isPaused false) ;;
         update (set_isCancelled false) ;;
         update (set_startTime now) ;;
         update (set_pausedTime 0%Z) ;;
         when (timerElement page) (update (set_timerText "00:00")) ;;
         startTimer now' ;;
         (* [startWaveform(stream)] only draws *)
         showView recording
     end)
    (fun _ =>
       alert "Could not access microphone. Please check permissions and try again.").

Definition togglePause (now : Z) : Script unit :=
  s <- state ;;
  if negb (isRecording s) || negb (isDefined (mediaRecorder s))
  then skip
  else if isPaused s then
    callRecorder "resume" recorder_resume ;;
    update (set_isPaused false) ;;
    update (set_pauseButtonIcon faPause) ;;
    (* Adjust start time for the pause duration *)
    update (fun s => set_startTime (now - (pausedTime s - startTime s))%Z s)
  else
    callRecorder "pause" recorder_pause ;;
    update (set_isPaused true) ;;
    update (set_pauseButtonIcon faPlay) ;;
    update (set_pausedTime now).

Definition stopRecording : Script unit :=
  s <- state ;;
  if negb (isRecording s) || negb (isDefined (mediaRecorder s))
  then skip
  else
    update (set_isCancelled false) ;;
    callRecorder "stop" recorder_stop ;;
    clearTimer ;;
    update (set_isRecording false) ;;
    showView processing.

Definition cancelRecording : Script unit :=
  s <- state ;;
  if negb (isRecording s) || negb (isDefined (mediaRecorder s))
  then skip
  else
    update (set_isCancelled true) ;;
    callRecorder "stop" recorder_stop ;;
    clearTimer ;;
    update (set_isRecording false) ;;
    (* Stop all audio tracks *)
    callRecorder "stream" stopTracks ;;
    showView landing.

(** ** Display insights *)

(** The class given to a bullet: [bullet.type || 'neutral']. *)
Definition bulletClass (type : option JValue) : string :=
  match type with
  | Some v => if Js.truthy type then Js.toString host v else "neutral"
  | None => "neutral"
  end.

(** The body of [data.bullets.forEach]: it reads [bullet.text] and
    [bullet.type]; [classList.add] refuses an empty token and one that
    holds whitespace. *)
Definition renderBullet (bullet : JValue) : Script unit :=
  _ <- getProp bullet "text" ;;
  type <- getProp bullet "type" ;;
  let token := bulletClass type in
  if Str.isEmpty token || Str.hasAsciiSpace token
  then throw (mkError (badTokenMessage host token))
  else skip.

(** [data.bullets.forEach(...)]: only an array has [forEach]. *)
Definition renderBullets (bullets : option JValue) : Script unit :=
  match bullets with
  | Some (JArr items) => forEach items renderBullet
  | Some JNull | None => throw (mkError (nullReadMessage host "forEach"))
  | Some _ => throw (mkError (notAFunctionMessage host "data.bullets.forEach"))
  end.

(** [displayInsights(data, topic)]; [isoNow] is
    [new Date().toISOString()].  The texts it writes into the page
    (transcript, emotion point and summary, next prompt, duration,
    progress) are not kept. *)
Definition displayInsights (data : JValue) (topic : string)
    (isoNow : string) : Script unit :=
  tryCatch
    (transcript <- getProp data "transcript" ;;
     bullets <- getProp data "bullets" ;;
     emotion <- getProp data "emotion" ;;
     nextPrompt <- getProp data "nextPrompt" ;;
     if negb (Js.truthy transcript) || negb (Js.truthy bullets)
        || negb (Js.truthy emotion) || negb (Js.truthy nextPrompt)
     then throw (mkError "Invalid data format received from server.")
     else
       (* Reflection bullets *)
       when (reflectionList page) (renderBullets bullets) ;;
       (* Save journal entry to local storage *)
       s <- state ;;
       saveJournalEntry
         [ ("date", Some (JStr isoNow));
           ("topic", Some (JStr topic));
           ("transcript", transcript);
           ("bullets", bullets);
           ("emotion", emotion);
           ("nextPrompt", nextPrompt);
           ("audioBlobUrl", option_map JStr (audioUrl s)) ] ;;
       (* Update calendar *)
       initCalendar ;;
       showView insights)
    (fun error =>
       alert (displayAlert (messageOf error)) ;;
       showView landing).

(** ** Audio processing *)

(** [await response.json()]. *)
Definition json (body : Body) : Script JValue :=
  match body with
  | Json v => ret v
  | NotJson syntaxError => throw syntaxError
  end.

(** The message of [new Error(errorData.error || `HTTP error! status:
    ${response.status}`)]. *)
Definition httpErrorMessage (error : option JValue) (status : nat)
  : string :=
  match error with
  | Some v =>
      if Js.truthy error then Js.toString host v
      else "HTTP error! status: " ++ Str.ofNat status
  | None => "HTTP error! status: " ++ Str.ofNat status
  end.

(** [processAudio()].  [url] is what [URL.createObjectURL] returns,
    [answer] what the server does with the request, [isoNow] the clock
    read by [displayInsights].  The function is taken in one piece: no
    other handler runs while it awaits the answer. *)
Definition processAudio (url : string) (answer : FetchResult)
    (isoNow : string) : Script unit :=
  update (fun s => set_audioBlob (Some (String.concat "" (audioChunks s))) s) ;;
  update (set_audioUrl (Some url)) ;;
  (* Determine topic *)
  s <- state ;;
  let topic := resolveTopic s in
  tryCatch
    (showView processing ;;
     update (fun s =>
               set_requests
                 (requests s
                  ++ [mkRequest (String.concat "" (audioChunks s)) topic]) s) ;;
     match answer with
     | Rejected reason => throw reason
     | Responded status body =>
         if negb (ok status) then
           errorData <- json body ;;
           error <- getProp errorData "error" ;;
           throw (mkError (httpErrorMessage error status))
         else
           data <- json body ;;
           displayInsights data topic isoNow
     end)
    (fun error =>
       alert (processAlert (messageOf error)) ;;
       showView landing).

(** ** The listeners that [startRecording] puts on the recorder *)

Definition onDataAvailable (data : Blob) : Script unit :=
  update (fun s => set_audioChunks (audioChunks s ++ [data]) s).

Definition onStop (url : string) (answer : FetchResult) (isoNow : string)
  : Script unit :=
  s <- state ;;
  (* Only process audio if not cancelled *)
  when (negb (isCancelled s)) (processAudio url answer isoNow) ;;
  (* Stop all audio tracks after recording stops *)
  callRecorder "stream" stopTracks.

(** The task queued by [mediaRecorder.stop()], when the browser runs it:
    [data] is everything the recorder gathered.  The browser runs it
    before it dispatches a later click. *)
Definition recorderStopTask (data : Blob) (url : string)
    (answer : FetchResult) (isoNow : string) : Script unit :=
  s <- state ;;
  match mediaRecorder s with
  | Some r =>
      if stopQueued r then
        update (set_mediaRecorder
                  (Some (mkRecorder (recState r) false (tracksLive r)))) ;;
        onDataAvailable data ;;
        onStop url answer isoNow
      else skip
  | None => skip
  end.

(** ** Settings: export all data *)

(** The object literal built for one entry by [entries.map]. *)
Definition exportEntry (entry : JValue) : Script JValue :=
  date <- getProp entry "date" ;;
  topic <- getProp entry "topic" ;;
  transcript <- getProp entry "transcript" ;;
  bullets <- getProp entry "bullets" ;;
  emotion <- getProp entry "emotion" ;;
  nextPrompt <- getProp entry "nextPrompt" ;;
  (* Note: audioBlobUrl is excluded as it's a temporary browser URL *)
  ret (stringifyObject
         [ ("date", date);
           ("topic", topic);
           ("transcript", transcript);
           ("bullets", bullets);
           ("emotion", emotion);
           ("nextPrompt", nextPrompt) ]).

(** The number [n] as a JSON number. *)
Definition numberOf (n : nat) : JValue := JNum (inject_Z (Z.of_nat n)).

(** The object [exportData], as [JSON.stringify] writes it. *)
Definition exportData (isoNow : string) (entries : list JValue)
  : Script JValue :=
  exported <- mapM exportEntry entries ;;
  ret (stringifyObject
         [ ("exportDate", Some (JStr isoNow));
           ("totalEntries", Some (numberOf (length entries)));
           ("appVersion", Some (JStr "1.0.0"));
           ("entries", Some (JArr exported)) ]).

(** [exportAllData()]; [isoNow] and [isoNow'] are the two readings of
    [new Date().toISOString()]. *)
Definition exportAllData (isoNow isoNow' : string) : Script unit :=
  tryCatch
    (s <- state ;;
     let entries := readEntries s in
     if (length entries =? 0)%nat then
       alert "No journal entries to export."
     else
       dataStr <- exportData isoNow entries ;;
       (* Create download link, trigger download *)
       update (fun s =>
                 set_downloads
                   (downloads s
                    ++ [mkDownload
                          ("unposted-journal-"
                           ++ Str.beforeChar "T"%char isoNow' ++ ".json")
                          "application/json" dataStr]) s) ;;
       alert ("✅ Successfully exported " ++ Str.ofNat (length entries)
              ++ " journal "
              ++ (if (length entries =? 1)%nat then "entry" else "entries")
              ++ "!"))
    (fun _ => alert "❌ Failed to export data. Please try again.").

(** ** Settings: delete all data *)

(** [deleteAllData()]; [answer] and [answer'] are what the user answers
    to the first and, if it is asked, to the second [confirm]. *)
Definition deleteAllData (answer answer' : bool) : Script unit :=
  s <- state ;;
  let entries := readEntries s in
  if (length entries =? 0)%nat then alert "No data to delete."
  else
    (* Confirm deletion *)
    confirmDelete <-
      confirm ("⚠️ Warning: This will permanently delete all "
               ++ Str.ofNat (length entries) ++ " journal "
               ++ (if (length entries =? 1)%nat then "entry" else "entries")
               ++ "." ++ Str.LF ++ Str.LF
               ++ "This action cannot be undone. Are you sure you want to continue?")
              answer ;;
    when confirmDelete
      (* Double confirmation for safety *)
      (doubleConfirm <-
         confirm "🚨 Final confirmation: Delete ALL journal data permanently?"
                 answer' ;;
       when doubleConfirm
         (tryCatch
            ((* Clear all journal data from localStorage *)
             update (set_journalEntries None) ;;
             (* Refresh calendar to show empty state *)
             initCalendar ;;
             alert "✅ All journal data has been deleted successfully." ;;
             (* Return to landing page *)
             showView landing)
            (fun _ => alert "❌ Failed to delete data. Please try again."))).

End App.

Arguments elapsed now s : simpl never.
Arguments displayAlert message : simpl never.
Arguments processAlert message : simpl never.
Arguments Str.trim s : simpl never.

(* ================================================================== *)
(** * The events of a session and the states they reach *)
(* ================================================================== *)

(** What the browser can make the script do: a click on a control, a tick
    of the timer interval, the task queued by the recorder's [stop()]. *)
Inductive Event : Type :=
| ClickRecord (media : UserMedia) (now now' : Z)
| ClickPause (now : Z)
| ClickStop
| ClickCancel
| RecorderStopped (data : Blob) (url : string) (answer : FetchResult)
    (isoNow : string)
| TimerTick (now : Z)
| ClickStarter (i : nat)
| InputCustomStarter (value : string)
| ClickNewReflection
| ClickSettings
| ClickCloseSettings
| ClickExport (isoNow isoNow' : string)
| ClickDelete (answer answer' : bool).

Section Events.

Variable host : Host.
Variable page : Page.

(** The listener registered for each event. *)
Definition handle (e : Event) : Script unit :=
  match e with
  | ClickRecord media now now' => startRecording host page media now now'
  | ClickPause now => togglePause host now
  | ClickStop => stopRecording host page
  | ClickCancel => cancelRecording host page
  | RecorderStopped data url answer isoNow =>
      recorderStopTask host page data url answer isoNow
  | TimerTick now =>
      s <- state ;; when (timerInterval s) (updateTimer page now)
  | ClickStarter i => clickStarter page i
  | InputCustomStarter value => inputCustomStarter page value
  | ClickNewReflection => showView page landing
  | ClickSettings => showView page settings
  | ClickCloseSettings => showView page landing
  | ClickExport isoNow isoNow' => exportAllData host isoNow isoNow'
  | ClickDelete answer answer' => deleteAllData host page answer answer'
  end.

Definition step (s : State) (e : Event) : State := exec (handle e) s.

Definition run (es : list Event) (s : State) : State := fold_left step es s.

(** The state when the script has been loaded: the variables as they are
    declared, the page as its markup and the previous visits left it, and
    the calendar drawn once. *)
Definition loaded (active : option View) (timer : string) (icon : Icon)
    (options : list StarterOption) (stored : option (list JValue))
  : State :=
  exec (initCalendar host page)
    (mkState active None [] None None 0%Z 0%Z false false false false
       timer icon options "" [] stored [] [] [] []).

End Events.

(** ** The session state that the flags encode *)

Inductive SessionState : Type := Idle | Recording | Paused | Stopping.

(** The recorder has been told to stop and its task has not run yet. *)
Definition stopPending (s : State) : bool :=
  match mediaRecorder s with
  | Some r => stopQueued r
  | None => false
  end.

Definition sessionState (s : State) : SessionState :=
  if isRecording s then (if isPaused s then Paused else Recording)
  else if stopPending s && negb (isCancelled s) then Stopping
  else Idle.

(** ** What holds in every state the events reach *)

(** While [isRecording], the recorder exists, and it is paused exactly
    when [isPaused]. *)
Definition recorderAgrees (s : State) : bool :=
  if isRecording s then
    match mediaRecorder s with
    | Some r =>
        match recState r with
        | inactive => false
        | rec_recording => negb (isPaused s)
        | rec_paused => isPaused s
        end
    | None => false
    end
  else true.

Definition notNull (v : JValue) : bool :=
  match v with JNull => false | _ => true end.

(** No stored entry is [null]: every entry was stored by
    [saveJournalEntry], as an object. *)
Definition storeAgrees (s : State) : bool :=
  forallb notNull (readEntries s).

Definition consistent (s : State) : bool :=
  recorderAgrees s && storeAgrees s.

(* ================================================================== *)
(** * The session as the specification words it *)
(* ================================================================== *)

Module Spec.

(** [RecordingSession], without its chunks. *)
Record RecordingSession : Type := mkSession {
  state : SessionState;
  startedAt : Z;
  pausedAt : Z;
  accumulatedPauseOffset : Z
}.

(** [start()]: zeroes [accumulatedPauseOffset], captures
    [startedAt = now], transitions to [Recording]. *)
Definition start (now : Z) : RecordingSession :=
  mkSession Recording now 0%Z 0%Z.

(** [pause()]: valid only from [Recording]; records [pausedAt = now],
    transitions to [Paused]. *)
Definition pause (now : Z) (r : RecordingSession) : RecordingSession :=
  match state r with
  | Recording =>
      mkSession Paused (startedAt r) now (accumulatedPauseOffset r)
  | _ => r
  end.

(** [resume()]: valid only from [Paused]; adds [now - pausedAt] to
    [accumulatedPauseOffset], transitions to [Recording]. *)
Definition resume (now : Z) (r : RecordingSession) : RecordingSession :=
  match state r with
  | Paused =>
      mkSession Recording (startedAt r) (pausedAt r)
        (accumulatedPauseOffset r + (now - pausedAt r))%Z
  | _ => r
  end.

(** The elapsed time formula. *)
Definition elapsed (now : Z) (r : RecordingSession) : Z :=
  match state r with
  | Recording => (now - startedAt r - accumulatedPauseOffset r)%Z
  | Paused => (pausedAt r - startedAt r - accumulatedPauseOffset r)%Z
  | Idle | Stopping => 0%Z
  end.

(** A pause/resume history: the instants at which the user pauses,
    resumes, pauses, ... *)
Definition press (r : RecordingSession) (now : Z) : RecordingSession :=
  match state r with
  | Recording => pause now r
  | Paused => resume now r
  | _ => r
  end.

Definition history (presses : list Z) (r : RecordingSession)
  : RecordingSession :=
  fold_left press presses r.

End Spec.

(** The same history on the script: each instant is a click on the pause
    button. *)
Definition pauseHistory (host : Host) (presses : list Z) (s : State) : State :=
  fold_left (fun s now => exec (togglePause host now) s) presses s.

(** The script keeps no [accumulatedPauseOffset]: on resume it moves
    [startTime] forward by the length of the pause.  [refines s r] says
    that the variables of the script encode the session [r]. *)
Definition refines (s : State) (r : Spec.RecordingSession) : Prop :=
  recorderAgrees s = true
  /\ isRecording s = true
  /\ sessionState s = Spec.state r
  /\ startTime s = (Spec.startedAt r + Spec.accumulatedPauseOffset r)%Z
  /\ (isPaused s = true -> pausedTime s = Spec.pausedAt r).

(** ** What a handler leaves unchanged *)

(** [frames R m]: whatever the start state and however [m] ends, the
    start and the end state are related by [R]. *)
Definition frames {A : Type} (R : State -> State -> Prop) (m : Script A)
  : Prop :=
  forall s : State, R s (exec m s).

(** [m] never throws. *)
Definition returns {A : Type} (m : Script A) : Prop :=
  forall s : State, exists a : A, outcome m s = Normal a.

(** The recorder and the flags of the session are the same, and a store
    without [null] entries stays one. *)
Definition sessionKept (s s' : State) : Prop :=
  mediaRecorder s' = mediaRecorder s
  /\ isRecording s' = isRecording s
  /\ isPaused s' = isPaused s
  /\ isCancelled s' = isCancelled s
  /\ (storeAgrees s = true -> storeAgrees s' = true).

(** ** The payload check of [displayInsights] *)

(** [v.k] when [v] is not [null]. *)
Definition field (v : JValue) (k : string) : option JValue :=
  match v with
  | JObj props => Js.lookup k props
  | _ => None
  end.

Definition requiredFields : list string :=
  ["transcript"; "bullets"; "emotion"; "nextPrompt"].

(** The guard of [displayInsights] lets [data] through. *)
Definition passesGuard (data : JValue) : bool :=
  notNull data && forallb (fun k => Js.truthy (field data k)) requiredFields.

(** The message of the error that the guard, or the read of
    [data.transcript] before it, throws. *)
Definition guardMessage (host : Host) (data : JValue) : string :=
  match data with
  | JNull => nullReadMessage host "transcript"
  | _ => "Invalid data format received from server."
  end.

(** The state in which [processAudio] awaits the answer: blob and URL
    made, processing view shown, request sent. *)
Definition awaiting (page : Page) (url : string) (s : State) : State :=
  let audio := String.concat "" (audioChunks s) in
  let s1 := set_audioUrl (Some url) (set_audioBlob (Some audio) s) in
  let topic := resolveTopic page s1 in
  let s2 := set_view (if hasView page processing then Some processing
                      else None) s1 in
  set_requests (requests s2 ++ [mkRequest audio topic]) s2.

(** The state after the [catch] of [processAudio] or of [displayInsights]
    ran: the message shown, the landing view active. *)
Definition failed (page : Page) (text : string) (s : State) : State :=
  set_view (if hasView page landing then Some landing else None)
    (set_alerts (alerts s ++ [text]) s).

(** ** Reachable states *)

(** The states that the events reach after the page was loaded over a
    store that earlier visits left without a [null] entry. *)
Definition reachable (host : Host) (page : Page) (s : State) : Prop :=
  exists (active : option View) (timer : string) (icon : Icon)
         (options : list StarterOption) (stored : option (list JValue))
         (es : list Event),
    forallb notNull (match stored with Some l => l | None => [] end) = true
    /\ s = run host page es (loaded host page active timer icon options stored).

(** The recorder's state is the same: the step may have run its queued
    task and released the microphone. *)
Definition recordingKept (s s' : State) : Prop :=
  option_map recState (mediaRecorder s') = option_map recState (mediaRecorder s)
  /\ isRecording s' = isRecording s
  /\ isPaused s' = isPaused s
  /\ (storeAgrees s = true -> storeAgrees s' = true).

(** ** Topic selection *)

(** A sequence of clicks on starter options. *)
Definition clickStarters (page : Page) (clicks : list nat) (s : State)
  : State :=
  fold_left (fun s i => exec (clickStarter page i) s) clicks s.

(** ** Export *)

(** The fields of an entry that the export carries. *)
Definition exportedFields : list string :=
  ["date"; "topic"; "transcript"; "bullets"; "emotion"; "nextPrompt"].

(** [JSON.parse(dataStr).entries], for a document [dataStr]. *)
Definition entriesOf (document : JValue) : list JValue :=
  match field document "entries" with
  | Some (JArr items) => items
  | _ => []
  end.

(** ** Three sentences of the specification, read on the script *)

Module Claimed.

(** 'cancel(): releases the microphone device, discards chunks,
    transitions directly to Idle; the Processing Client is never
    invoked': once the recorder has delivered its events. *)
Definition cancelDiscardsChunks (host : Host) (page : Page) (s : State)
    (data : Blob) (url : string) (answer : FetchResult) (isoNow : string)
  : Prop :=
  sessionState s = Recording \/ sessionState s = Paused ->
  let s' := exec (recorderStopTask host page data url answer isoNow)
              (exec (cancelRecording host page) s) in
  sessionState s' = Idle
  /\ view s' = Some landing
  /\ audioChunks s' = []
  /\ requests s' = requests s.

(** 'pause(): valid only from Recording; calls from any other state are
    no-ops': the pause button is the only way to pause. *)
Definition pauseElsewhereIsNoOp (host : Host) (s : State) (now : Z)
  : Prop :=
  sessionState s <> Recording -> exec (togglePause host now) s = s.

(** 'two starter-topic clicks followed by typing free text: the
    resolved Topic equals the typed text'. *)
Definition typedTextIsTopic (page : Page) (s : State) (clicks : list nat)
    (typed : string) : Prop :=
  typed <> "" ->
  resolveTopic page
    (exec (inputCustomStarter page typed) (clickStarters page clicks s))
  = typed.

End Claimed.

(** ** A page and a browser to run the script on *)

Module Sample.

Definition host : Host :=
  mkHost
    (fun q => Str.ofZ (Qnum q / Zpos (Qden q)))
    (fun d => match d with
              | Some (JStr iso) => String.substring 0 10 iso
              | _ => "NaN-NaN-NaN"
              end)
    (fun k => ("Cannot read properties of null (reading '" ++ k ++ "')")%string)
    (fun f => (f ++ " is not a function")%string)
    (fun t => ("The token provided ('" ++ t ++ "') is not valid.")%string).

(** A page with every element the script looks up. *)
Definition page : Page := mkPage (fun _ => true) true true true true.

(** The page just loaded, on its landing view, the store empty. *)
Definition fresh : State :=
  loaded host page (Some landing) "00:00" faPause
    [mkStarter "Gratitude" false; mkStarter "A hard moment" false] None.

(** A recording started at [t]. *)
Definition recordingSince (t : Z) : State :=
  step host page fresh (ClickRecord Stream t t).

(** The same recording, paused at [t']. *)
Definition pausedSince (t t' : Z) : State :=
  step host page (recordingSince t) (ClickPause t').

(** A payload that passes the guard. *)
Definition payload : JValue :=
  JObj [ ("transcript", JStr "Today I walked by the river.");
         ("bullets", JArr [JObj [("text", JStr "You took time outside.");
                                 ("type", JStr "supportive")]]);
         ("emotion", JObj [("summary", JStr "Calm.")]);
         ("nextPrompt", JStr "What did you notice?") ].

(** The store after two reflections were recorded and processed. *)
Definition twoEntries : State :=
  run host page
    [ ClickRecord Stream 0 0; ClickStop;
      RecorderStopped "a" "blob:1" (Responded 200 (Json payload))
        "2026-11-02T10:00:00.000Z";
      ClickNewReflection;
      ClickRecord Stream 9000 9000; ClickStop;
      RecorderStopped "b" "blob:2" (Responded 200 (Json payload))
        "2026-11-03T08:30:00.000Z" ]
    fresh.

End Sample.

(** The object that [exportAllData] writes for an entry that is not
    [null]. *)
Definition exported (entry : JValue) : JValue :=
  stringifyObject (map (fun k => (k, field entry k)) exportedFields).

(** The document that [exportAllData] writes for a store that has
    entries, none of them [null]. *)
Definition exportDocument (isoNow : string) (entries : list JValue)
  : JValue :=
  JObj [ ("exportDate", JStr isoNow);
         ("totalEntries", numberOf (length entries));
         ("appVersion", JStr "1.0.0");
         ("entries", JArr (map exported entries)) ].

(** ** Clocks that do not run backwards *)

(** [lo <= t1 <= ... <= tn <= hi] for the instants [t1], ..., [tn]. *)
Fixpoint chain (lo : Z) (instants : list Z) (hi : Z) : Prop :=
  match instants with
  | [] => (lo <= hi)%Z
  | t :: r => (lo <= t)%Z /\ chain t r hi
  end.

(** ** Two decimal digits *)

Definition digit (n : Z) : ascii := ascii_of_nat (48 + Z.to_nat n).

(** The number [n], below 100, written with two digits. *)
Definition twoDigits (n : Z) : string :=
  String (digit (n / 10)) (String (digit (n mod 10)) "").

(** ** The entry that a successful answer stores *)


(** The object that [displayInsights] hands to [saveJournalEntry], as it
    is stored; [url] is the variable [audioUrl]. *)
Definition savedEntry (isoNow topic : string) (data : JValue)
    (url : option string) : JValue :=
  stringifyObject
    [ ("date", Some (JStr isoNow));
      ("topic", Some (JStr topic));
      ("transcript", field data "transcript");
      ("bullets", field data "bullets");
      ("emotion", field data "emotion");
      ("nextPrompt", field data "nextPrompt");
      ("audioBlobUrl", option_map JStr url) ].

(** [renderBullet] goes through for the bullet: it is not [null] and its
    class is a token that [classList.add] takes. *)
Definition bulletRenders (host : Host) (bullet : JValue) : bool :=
  notNull bullet
  && negb (Str.isEmpty (bulletClass host (field bullet "type"))
           || Str.hasAsciiSpace (bulletClass host (field bullet "type"))).

(** [data.bullets.forEach(...)] goes through: [bullets] is an array of
    such bullets. *)
Definition bulletsRender (host : Host) (bullets : option JValue) : bool :=
  match bullets with
  | Some (JArr items) => forallb (bulletRenders host) items
  | _ => false
  end.

(** The local days of the stored entries, as [getJournalDays] returns
    them when no entry is [null]. *)
Definition journalDays (host : Host) (s : State) : list string :=
  map (fun entry => localDay host (field entry "date")) (readEntries s).

(** The journal store is the same. *)
Definition storeKept (s s' : State) : Prop :=
  journalEntries s' = journalEntries s.

(** Nothing but the journal store, the calendar, the view and the alerts
    may differ. *)
Definition clientKept (s s' : State) : Prop :=
  mediaRecorder s' = mediaRecorder s
  /\ audioChunks s' = audioChunks s
  /\ audioBlob s' = audioBlob s
  /\ audioUrl s' = audioUrl s
  /\ isRecording s' = isRecording s
  /\ isPaused s' = isPaused s
  /\ isCancelled s' = isCancelled s
  /\ starterOptions s' = starterOptions s
  /\ customStarterValue s' = customStarterValue s
  /\ requests s' = requests s
  /\ downloads s' = downloads s
  /\ confirms s' = confirms s.

(** The stored entries are still there, in their order, possibly followed
    by new ones. *)
Definition storeGrown (s s' : State) : Prop :=
  exists added : list JValue, readEntries s' = readEntries s ++ added.

(** The state in which the recorder's stop task calls the [stop]
    listener: the task is off the queue and [dataavailable] has pushed the
    recorded data. *)
Definition delivered (data : Blob) (s : State) : State :=
  match mediaRecorder s with
  | Some r =>
      set_audioChunks (audioChunks s ++ [data])
        (set_mediaRecorder
           (Some (mkRecorder (recState r) false (tracksLive r))) s)
  | None => s
  end.

(** ** The name of the export file, and the calendar grid *)

(** The text [s] holds the character [c]. *)
Fixpoint hasChar (c : ascii) (s : string) : bool :=
  match s with
  | "" => false
  | String a r => Ascii.eqb a c || hasChar c r
  end.

(** The cells that [initCalendar] appends to the calendar, in order. *)
Inductive Cell : Type :=
| HeaderCell (name : string)
| EmptyCell
| DayCell (day : nat) (journalDay : bool).

Definition dayNames : list string :=
  ["Su"; "Mo"; "Tu"; "We"; "Th"; "Fr"; "Sa"].

(** [`${year}-${String(month + 1).padStart(2, '0')}-${String(i).padStart(2,
    '0')}`], for the month index [month] (January is 0). *)
Definition dateStr (year month i : nat) : string :=
  Str.ofNat year ++ "-" ++ Str.padStart0 2 (Str.ofNat (month + 1)) ++ "-"
  ++ Str.padStart0 2 (Str.ofNat i).

(** [journalDays.includes(dateStr)]. *)
Definition includes (journalDays : list string) (dateStr : string) : bool :=
  existsb (String.eqb dateStr) journalDays.

(** The grid for the month [month] of [year], whose first day falls on
    the weekday [firstDayOfMonth] (Sunday is 0) and whose last day is
    [lastDayOfMonth]: the seven headers, an empty cell for each weekday
    before the first, and a cell for each day, marked when the journal has
    an entry of that day. *)
Definition calendarCells (year month firstDayOfMonth lastDayOfMonth : nat)
    (journalDays : list string) : list Cell :=
  map HeaderCell dayNames
  ++ repeat EmptyCell firstDayOfMonth
  ++ map (fun i => DayCell i (includes journalDays (dateStr year month i)))
       (seq 1 lastDayOfMonth).

(** ** Events of the recording session and events of the rest of the page *)

(** The events that drive the recording session: the four buttons of the
    recording and the recorder's own task. *)
Definition sessionEvent (e : Event) : bool :=
  match e with
  | ClickRecord _ _ _ | ClickPause _ | ClickStop | ClickCancel
  | RecorderStopped _ _ _ _ => true
  | _ => false
  end.

(** The variables of the recording session are the same. *)
Definition recordingUntouched (s s' : State) : Prop :=
  mediaRecorder s' = mediaRecorder s
  /\ audioChunks s' = audioChunks s
  /\ startTime s' = startTime s
  /\ pausedTime s' = pausedTime s
  /\ timerInterval s' = timerInterval s
  /\ isRecording s' = isRecording s
  /\ isPaused s' = isPaused s
  /\ isCancelled s' = isCancelled s.

(* ================================================================== *)
(** * Elapsed time across pauses *)
(* ================================================================== *)

Section Timer.

Variable host : Host.
Variable page : Page.

Lemma startRecording_refines (s0 : State) (t0 t0' : Z) :
  refines (exec (startRecording host page Stream t0 t0') s0) (Spec.start t0).
Proof.
  unfold refines, exec, startRecording, startTimer, updateTimer, showView.
  destruct (timerElement page); cbn; repeat split; try reflexivity; lia.
Qed.

Lemma togglePause_refines (s : State) (r : Spec.RecordingSession) (now : Z) :
  refines s r -> refines (exec (togglePause host now) s) (Spec.press r now).
Proof.
  unfold refines, recorderAgrees, sessionState.
  intros (Hrec & Hon & Hst & Hstart & Hpaused).
  destruct s as [v mr ch bl ur st pt ti isr isp isc tt ic so cv cd je al cf rq dl].
  destruct r as [rs sa pa acc].
  cbn in *. subst isr.
  destruct mr as [[rst q live]|]; [|discriminate].
  destruct isp; cbn in *; subst rs;
    destruct rst; try discriminate; cbn;
    repeat split; try reflexivity; try lia; try discriminate.
Qed.

Lemma pauseHistory_refines (presses : list Z) :
  forall (s : State) (r : Spec.RecordingSession),
    refines s r ->
    refines (pauseHistory host presses s) (Spec.history presses r).
Proof.
  induction presses as [|now presses IH]; intros s r H; [exact H|].
  cbn. apply IH, togglePause_refines, H.
Qed.

Lemma history_startedAt (presses : list Z) :
  forall r : Spec.RecordingSession,
    Spec.startedAt (Spec.history presses r) = Spec.startedAt r.
Proof.
  induction presses as [|now presses IH]; intros r; [reflexivity|].
  cbn. rewrite IH. unfold Spec.press, Spec.pause, Spec.resume.
  destruct (Spec.state r); reflexivity.
Qed.

Lemma refines_active (s : State) (r : Spec.RecordingSession) :
  refines s r -> Spec.state r = Recording \/ Spec.state r = Paused.
Proof.
  unfold refines, sessionState.
  intros (_ & Hon & Hst & _). rewrite Hon in Hst.
  destruct (isPaused s); rewrite <- Hst; auto.
Qed.

Lemma refines_elapsed (s : State) (r : Spec.RecordingSession) (now : Z) :
  refines s r -> elapsed now s = Spec.elapsed now r.
Proof.
  unfold refines, sessionState, elapsed, Spec.elapsed.
  intros (_ & Hon & Hst & Hstart & Hpaused).
  rewrite Hon in Hst. rewrite <- Hst.
  destruct (isPaused s).
  - rewrite Hstart, (Hpaused eq_refl). lia.
  - rewrite Hstart. lia.
Qed.

Lemma updateTimer_text (s : State) (now : Z) :
  isRecording s = true ->
  timerText (exec (updateTimer page now) s)
  = if timerElement page then display (elapsed now s) else timerText s.
Proof.
  intros Hon. unfold exec, updateTimer, bind, state. cbn.
  rewrite Hon. destruct (timerElement page); reflexivity.
Qed.

End Timer.

(** C1.  Whatever the pause/resume history after a start at [t0], the
    elapsed time that [updateTimer] computes at [now] is the one of the
    specification's formula: [now - startedAt - accumulatedPauseOffset] while
    recording, [pausedAt - startedAt - accumulatedPauseOffset] while paused,
    and the timer shows it as [MM:SS].  For start, 2500 ms, pause, 1000 ms,
    resume, 500 ms, it is 3000 ms, shown as [00:03]. *)
Theorem elapsed_time_formula
    (host : Host) (page : Page) (s0 : State) (t0 t0' : Z)
    (presses : list Z) (now : Z) :
  let s := pauseHistory host presses
             (exec (startRecording host page Stream t0 t0') s0) in
  let r := Spec.history presses (Spec.start t0) in
  let scenario := pauseHistory host [(t0 + 2500)%Z; (t0 + 3500)%Z]
             (exec (startRecording host page Stream t0 t0') s0) in
  sessionState s = Spec.state r
  /\ (Spec.state r = Recording \/ Spec.state r = Paused)
  /\ elapsed now s
     = match Spec.state r with
       | Paused =>
           (Spec.pausedAt r - Spec.startedAt r
            - Spec.accumulatedPauseOffset r)%Z
       | _ =>
           (now - Spec.startedAt r - Spec.accumulatedPauseOffset r)%Z
       end
  /\ timerText (exec (updateTimer page now) s)
     = (if timerElement page then display (Spec.elapsed now r)
        else timerText s)
  /\ Spec.startedAt r = t0
  /\ elapsed (t0 + 4000)%Z scenario = 3000%Z
  /\ display (elapsed (t0 + 4000)%Z scenario) = "00:03".
Proof.
  intros s r scenario.
  assert (H : refines s r)
    by (apply pauseHistory_refines, startRecording_refines).
  assert (Hsc : elapsed (t0 + 4000)%Z scenario = 3000%Z).
  { unfold scenario.
    rewrite (refines_elapsed _ _ _
               (pauseHistory_refines host _ _ _
                  (startRecording_refines host page s0 t0 t0'))).
    cbn. lia. }
  pose proof (refines_active _ _ H) as Hact.
  repeat split.
  - apply H.
  - exact Hact.
  - rewrite (refines_elapsed _ _ now H). unfold Spec.elapsed.
    destruct Hact as [-> | ->]; reflexivity.
  - rewrite updateTimer_text by apply H.
    rewrite (refines_elapsed _ _ now H). reflexivity.
  - apply history_startedAt.
  - exact Hsc.
  - rewrite Hsc. reflexivity.
Qed.

(* ================================================================== *)
(** * Frames: what the handlers leave unchanged *)
(* ================================================================== *)

Section Frames.

Context {R : State -> State -> Prop} {RP : PreOrder R}.

Lemma frames_ret {A : Type} (a : A) : frames R (ret a).
Proof. intros s. reflexivity. Qed.

Lemma frames_throw {A : Type} (e : Error) : frames R (@throw A e).
Proof. intros s. reflexivity. Qed.

Lemma frames_state : frames R state.
Proof. intros s. reflexivity. Qed.

Lemma frames_update (f : State -> State) :
  (forall s, R s (f s)) -> frames R (update f).
Proof. intros H s. apply H. Qed.

Lemma frames_bind {A B : Type} (m : Script A) (k : A -> Script B) :
  frames R m -> (forall a, frames R (k a)) -> frames R (bind m k).
Proof.
  intros Hm Hk s. specialize (Hm s). unfold exec, bind in *.
  destruct (m s) as [[a|e] s']; cbn in *.
  - transitivity s'; [exact Hm | apply Hk].
  - exact Hm.
Qed.

Lemma frames_tryCatch {A : Type} (m : Script A) (h : Error -> Script A) :
  frames R m -> (forall e, frames R (h e)) -> frames R (tryCatch m h).
Proof.
  intros Hm Hh s. specialize (Hm s). unfold exec, tryCatch in *.
  destruct (m s) as [[a|e] s']; cbn in *.
  - exact Hm.
  - transitivity s'; [exact Hm | apply Hh].
Qed.

Lemma frames_when (b : bool) (m : Script unit) :
  frames R m -> frames R (when b m).
Proof. intros Hm. destruct b; [exact Hm | apply frames_ret]. Qed.

Lemma frames_forEach {A : Type} (l : list A) (f : A -> Script unit) :
  (forall a, frames R (f a)) -> frames R (forEach l f).
Proof.
  intros Hf. induction l as [|a l IH]; cbn.
  - apply frames_ret.
  - apply frames_bind; [apply Hf | intros _; exact IH].
Qed.

Lemma frames_mapM {A B : Type} (f : A -> Script B) (l : list A) :
  (forall a, frames R (f a)) -> frames R (mapM f l).
Proof.
  intros Hf. induction l as [|a l IH]; cbn.
  - apply frames_ret.
  - apply frames_bind; [apply Hf | intros b].
    apply frames_bind; [exact IH | intros bs; apply frames_ret].
Qed.

Lemma frames_getProp (host : Host) (v : JValue) (k : string) :
  frames R (getProp host v k).
Proof. destruct v; first [apply frames_ret | apply frames_throw]. Qed.

End Frames.

Ltac frame_step :=
  lazymatch goal with
  | |- frames _ (ret _) => apply frames_ret
  | |- frames _ skip => apply frames_ret
  | |- frames _ (throw _) => apply frames_throw
  | |- frames _ state => apply frames_state
  | |- frames _ (getProp _ _ _) => apply frames_getProp
  | |- frames _ (bind _ _) => apply frames_bind; [|intros ?]
  | |- frames _ (tryCatch _ _) => apply frames_tryCatch; [|intros ?]
  | |- frames _ (when _ _) => apply frames_when
  | |- frames _ (forEach _ _) => apply frames_forEach; intros ?
  | |- frames _ (mapM _ _) => apply frames_mapM; intros ?
  | |- frames _ (update _) => apply frames_update; intros ?
  | |- frames _ (if ?b then _ else _) => destruct b
  end.

#[local] Instance sessionKept_preorder : PreOrder sessionKept.
Proof.
  split.
  - intros s. unfold sessionKept. auto.
  - intros s1 s2 s3 (A1 & A2 & A3 & A4 & A5) (B1 & B2 & B3 & B4 & B5).
    unfold sessionKept. repeat split; try congruence. auto.
Qed.

Ltac kept_leaf :=
  match goal with
  | |- sessionKept ?s _ =>
      unfold sessionKept, storeAgrees, readEntries; cbn;
      repeat split; try reflexivity; try (intros H; exact H)
  end.

Create HintDb kept.

Ltac kept :=
  repeat first [ solve [eauto 1 with kept nocore] | frame_step | kept_leaf ].

Section Kept.
Variable host : Host.
Variable page : Page.

Lemma initCalendar_kept : frames sessionKept (initCalendar host page).
Proof. unfold initCalendar, getJournalDays. kept. Qed.

Lemma showView_kept (v : View) : frames sessionKept (showView page v).
Proof. unfold showView. kept. Qed.

Lemma alert_kept (text : string) : frames sessionKept (alert text).
Proof. unfold alert. kept. Qed.

Lemma saveJournalEntry_kept (entry : list (string * option JValue)) :
  frames sessionKept (saveJournalEntry entry).
Proof.
  unfold saveJournalEntry. apply frames_update. intros s.
  unfold sessionKept, storeAgrees, readEntries. cbn.
  repeat split; try reflexivity.
  intros H. rewrite forallb_app, H. reflexivity.
Qed.

Lemma renderBullets_kept (bullets : option JValue) :
  frames sessionKept (renderBullets host bullets).
Proof.
  unfold renderBullets, renderBullet.
  destruct bullets as [[|b|q|t|items|props]|]; kept.
Qed.

#[local] Hint Resolve initCalendar_kept showView_kept alert_kept
  saveJournalEntry_kept renderBullets_kept : kept.

Lemma displayInsights_kept (data : JValue) (topic isoNow : string) :
  frames sessionKept (displayInsights host page data topic isoNow).
Proof. unfold displayInsights. kept. Qed.

#[local] Hint Resolve displayInsights_kept : kept.

Lemma processAudio_kept (url : string) (answer : FetchResult)
    (isoNow : string) :
  frames sessionKept (processAudio host page url answer isoNow).
Proof.
  unfold processAudio, json.
  destruct answer as [reason|status [v|e]]; kept.
Qed.

Lemma exportAllData_kept (isoNow isoNow' : string) :
  frames sessionKept (exportAllData host isoNow isoNow').
Proof. unfold exportAllData, exportData, exportEntry. kept. Qed.

Lemma deleteAllData_kept (answer answer' : bool) :
  frames sessionKept (deleteAllData host page answer answer').
Proof. unfold deleteAllData, confirm. kept. Qed.

End Kept.

(* ================================================================== *)
(** * The processing client *)
(* ================================================================== *)

Section Processing.

Variable host : Host.
Variable page : Page.

Lemma displayInsights_rejects (data : JValue) (topic isoNow : string)
    (s : State) :
  passesGuard data = false ->
  displayInsights host page data topic isoNow s
  = (Normal tt, failed page (displayAlert (guardMessage host data)) s).
Proof.
  intros H.
  destruct data as [|b|q|t|items|props]; try reflexivity.
  unfold passesGuard, requiredFields in H. cbn in H.
  unfold displayInsights, tryCatch, bind, getProp, ret. cbn.
  destruct (Js.truthy (Js.lookup "transcript" props));
    destruct (Js.truthy (Js.lookup "bullets" props));
    destruct (Js.truthy (Js.lookup "emotion" props));
    destruct (Js.truthy (Js.lookup "nextPrompt" props));
    try discriminate H; reflexivity.
Qed.

Lemma displayInsights_returns (data : JValue) (topic isoNow : string)
    (s : State) :
  outcome (displayInsights host page data topic isoNow) s = Normal tt.
Proof.
  unfold outcome, displayInsights, tryCatch.
  match goal with |- context [match ?m s with _ => _ end] =>
    destruct (m s) as [[[]|e] s'] end; reflexivity.
Qed.

Lemma processAudio_success_status (url : string) (status : nat)
    (data : JValue) (isoNow : string) (s : State) :
  ok status = true ->
  exec (processAudio host page url (Responded status (Json data)) isoNow) s
  = exec (displayInsights host page data (resolveTopic page s) isoNow)
      (awaiting page url s).
Proof.
  intros Hok.
  pose proof (displayInsights_returns data (resolveTopic page s) isoNow
                (awaiting page url s)) as R.
  unfold exec, outcome in *.
  unfold processAudio, tryCatch, bind, update, state, showView, json, ret.
  cbn. rewrite Hok. cbn.
  change (resolveTopic page s)
    with (resolveTopic page
            (set_audioUrl (Some url)
               (set_audioBlob (Some (String.concat "" (audioChunks s))) s)))
    in R |- *.
  unfold awaiting in R |- *. cbn in R |- *.
  destruct (displayInsights _ _ _ _ _ _) as [[[]|e] s'];
    [reflexivity | discriminate R].
Qed.

(** A response with a success status whose payload does not pass the
    guard: the message of [displayInsights] is shown on the landing view,
    and nothing else changes after the request was sent. *)
Lemma processAudio_rejects (url : string) (status : nat)
    (data : JValue) (isoNow : string) (s : State) :
  ok status = true ->
  passesGuard data = false ->
  exec (processAudio host page url (Responded status (Json data)) isoNow) s
  = failed page (displayAlert (guardMessage host data))
      (awaiting page url s).
Proof.
  intros Hok Hbad.
  rewrite processAudio_success_status by exact Hok.
  unfold exec. rewrite displayInsights_rejects by exact Hbad. reflexivity.
Qed.

Lemma processAudio_http_error (url : string) (status : nat)
    (body : Body) (isoNow : string) (s : State) :
  ok status = false ->
  exec (processAudio host page url (Responded status body) isoNow) s
  = failed page
      (processAlert
         match body with
         | NotJson syntaxError => messageOf syntaxError
         | Json JNull => nullReadMessage host "error"
         | Json errorData =>
             httpErrorMessage host (field errorData "error") status
         end)
      (awaiting page url s).
Proof.
  intros Hok.
  unfold failed, awaiting.
  unfold exec, processAudio, tryCatch, bind, update, state, showView, json,
    ret, throw, alert, getProp.
  cbn. rewrite Hok. cbn.
  destruct body as [[|b|q|t|items|props]|[m]]; reflexivity.
Qed.

Lemma processAudio_network_error (url : string) (reason : Error)
    (isoNow : string) (s : State) :
  exec (processAudio host page url (Rejected reason) isoNow) s
  = failed page (processAlert (messageOf reason)) (awaiting page url s).
Proof.
  unfold failed, awaiting.
  unfold exec, processAudio, tryCatch, bind, update, state, showView,
    throw, alert.
  reflexivity.
Qed.

End Processing.

(* ================================================================== *)
(** * Consistency is an invariant of the events *)
(* ================================================================== *)

#[local] Instance recordingKept_preorder : PreOrder recordingKept.
Proof.
  split.
  - intros s. unfold recordingKept. auto.
  - intros s1 s2 s3 (A1 & A2 & A3 & A4) (B1 & B2 & B3 & B4).
    unfold recordingKept. repeat split; try congruence. auto.
Qed.

Lemma sessionKept_recordingKept (s s' : State) :
  sessionKept s s' -> recordingKept s s'.
Proof.
  intros (A1 & A2 & A3 & _ & A5). unfold recordingKept.
  rewrite A1. auto.
Qed.

Lemma frames_weaken {A : Type} (R R' : State -> State -> Prop)
    (m : Script A) :
  (forall s s', R s s' -> R' s s') -> frames R m -> frames R' m.
Proof. intros HR Hm s. apply HR, Hm. Qed.

Lemma recordingKept_consistent (s s' : State) :
  recordingKept s s' -> consistent s = true -> consistent s' = true.
Proof.
  unfold recordingKept, consistent, recorderAgrees.
  intros (A1 & A2 & A3 & A4) H.
  apply andb_true_iff in H. destruct H as [H1 H2].
  rewrite (A4 H2), andb_true_r, A2, A3.
  destruct (isRecording s); [|reflexivity].
  destruct (mediaRecorder s) as [r|], (mediaRecorder s') as [r'|];
    cbn in A1; try discriminate.
  injection A1 as ->. exact H1.
Qed.

Section Invariant.

Variable host : Host.
Variable page : Page.

Lemma stopTracks_kept :
  frames recordingKept (callRecorder host "stream" stopTracks).
Proof.
  intros s. unfold exec, callRecorder, bind, state, recordingKept.
  destruct (mediaRecorder s) as [r|] eqn:Hr; cbn; rewrite ?Hr; auto.
Qed.

Lemma onStop_kept (url : string) (answer : FetchResult) (isoNow : string) :
  frames recordingKept (onStop host page url answer isoNow).
Proof.
  unfold onStop. repeat frame_step.
  - apply (frames_weaken sessionKept); [exact sessionKept_recordingKept|].
    apply processAudio_kept.
  - apply stopTracks_kept.
Qed.

Lemma recorderStopTask_kept (data : Blob) (url : string)
    (answer : FetchResult) (isoNow : string) :
  frames recordingKept (recorderStopTask host page data url answer isoNow).
Proof.
  intros s. unfold exec, recorderStopTask, bind, state.
  destruct (mediaRecorder s) as [r|] eqn:Hr; [|reflexivity].
  destruct (stopQueued r); [|reflexivity].
  etransitivity; [|apply onStop_kept].
  unfold recordingKept. cbn. rewrite Hr. auto.
Qed.

Lemma startRecording_consistent (media : UserMedia) (now now' : Z)
    (s : State) :
  consistent s = true ->
  consistent (exec (startRecording host page media now now') s) = true.
Proof.
  unfold consistent, recorderAgrees, storeAgrees, readEntries.
  unfold exec, startRecording, startTimer, updateTimer, showView.
  intros H. apply andb_true_iff in H. destruct H as [H1 H2].
  destruct media as [|reason]; [destruct (timerElement page)|]; cbn;
    rewrite ?H1, ?H2; reflexivity.
Qed.

Ltac flags s :=
  destruct s as [v mr ch bl ur st pt ti isr isp isc tx ic so cv cd je al cf rq dl];
  destruct mr as [[rst q live]|]; try destruct rst;
  destruct isr; destruct isp; cbn in *.

Lemma togglePause_consistent (now : Z) (s : State) :
  consistent s = true ->
  consistent (exec (togglePause host now) s) = true.
Proof.
  unfold consistent, recorderAgrees, storeAgrees, readEntries.
  unfold exec, togglePause.
  flags s; intros H; try discriminate H; exact H.
Qed.

Lemma stopRecording_consistent (s : State) :
  consistent s = true ->
  consistent (exec (stopRecording host page) s) = true.
Proof.
  unfold consistent, recorderAgrees, storeAgrees, readEntries.
  unfold exec, stopRecording.
  flags s; intros H; try discriminate H; exact H.
Qed.

Lemma cancelRecording_consistent (s : State) :
  consistent s = true ->
  consistent (exec (cancelRecording host page) s) = true.
Proof.
  unfold consistent, recorderAgrees, storeAgrees, readEntries.
  unfold exec, cancelRecording.
  flags s; intros H; try discriminate H; exact H.
Qed.

Lemma sessionKept_consistent {A : Type} (m : Script A) (s : State) :
  frames sessionKept m ->
  consistent s = true -> consistent (exec m s) = true.
Proof.
  intros Hm. apply recordingKept_consistent, sessionKept_recordingKept, Hm.
Qed.

(** Every event keeps the recorder and the flags in agreement, and the
    store free of [null]. *)
Lemma step_consistent (s : State) (e : Event) :
  consistent s = true -> consistent (step host page s e) = true.
Proof.
  unfold step.
  destruct e; cbn [handle].
  - apply startRecording_consistent.
  - apply togglePause_consistent.
  - apply stopRecording_consistent.
  - apply cancelRecording_consistent.
  - apply recordingKept_consistent, recorderStopTask_kept.
  - apply sessionKept_consistent. unfold updateTimer. kept.
  - apply sessionKept_consistent. unfold clickStarter. kept.
  - apply sessionKept_consistent. unfold inputCustomStarter. kept.
  - apply sessionKept_consistent, showView_kept.
  - apply sessionKept_consistent, showView_kept.
  - apply sessionKept_consistent, showView_kept.
  - apply sessionKept_consistent, exportAllData_kept.
  - apply sessionKept_consistent, deleteAllData_kept.
Qed.

Lemma run_consistent (es : list Event) :
  forall s : State,
    consistent s = true -> consistent (run host page es s) = true.
Proof.
  induction es as [|e es IH]; intros s H; [exact H|].
  cbn. apply IH, step_consistent, H.
Qed.

(** X18.  Every state that the events reach from a load of the page
    (over a store without [null] entries) is consistent: while a recording
    is on, the recorder exists and is paused exactly when [isPaused] is
    set, and no stored entry is [null]. *)
Lemma reachable_consistent (s : State) :
  reachable host page s -> consistent s = true.
Proof.
  intros (active & timer & icon & options & stored & es & Hst & ->).
  apply run_consistent. unfold loaded.
  apply sessionKept_consistent; [apply initCalendar_kept|].
  unfold consistent, storeAgrees, readEntries. cbn. exact Hst.
Qed.

End Invariant.

(* ================================================================== *)
(** * Cancel and pause *)
(* ================================================================== *)

Ltac flags s :=
  destruct s as [v mr ch bl ur st pt ti isr isp isc tx ic so cv cd je al cf rq dl];
  destruct mr as [[rst q live]|]; try destruct rst;
  destruct isr; destruct isp.

Lemma startRecording_resets_chunks
    (host : Host) (page : Page) (now now' : Z) (s : State) :
  audioChunks (exec (startRecording host page Stream now now') s) = [].
Proof.
  unfold exec, startRecording, startTimer, updateTimer, showView.
  destruct (timerElement page); reflexivity.
Qed.

(** C2, as amended.  After [cancelRecording] from [Recording] or [Paused]
    the session is [Idle] on the landing view and stays so when the
    recorder delivers its events; no request is sent, no blob is made, the
    store is untouched and the microphone is released.  The chunk array is
    not emptied: it gets the recorder's data, and only the next
    [startRecording] resets it. *)
Theorem cancel_returns_to_idle
    (host : Host) (page : Page) (s : State) (data : Blob) (url : string)
    (answer : FetchResult) (isoNow : string) (now now' : Z) :
  consistent s = true ->
  sessionState s = Recording \/ sessionState s = Paused ->
  hasView page landing = true ->
  let s1 := exec (cancelRecording host page) s in
  let s2 := exec (recorderStopTask host page data url answer isoNow) s1 in
  sessionState s1 = Idle /\ view s1 = Some landing
  /\ sessionState s2 = Idle /\ view s2 = Some landing
  /\ requests s2 = requests s
  /\ audioBlob s2 = audioBlob s
  /\ journalEntries s2 = journalEntries s
  /\ option_map tracksLive (mediaRecorder s2) = Some false
  /\ audioChunks s1 = audioChunks s
  /\ audioChunks s2 = audioChunks s ++ [data]
  /\ audioChunks (exec (startRecording host page Stream now now') s2) = [].
Proof.
  intros Hc Hst Hv s1 s2.
  repeat match goal with
         | |- _ /\ _ => split
         | |- audioChunks (exec (startRecording _ _ _ _ _) _) = [] =>
             apply startRecording_resets_chunks
         end;
    subst s1 s2;
    flags s;
    unfold consistent, recorderAgrees, sessionState, stopPending in Hc, Hst;
    cbn in Hc, Hst; try discriminate Hc;
    try (exfalso; destruct Hst as [Hst|Hst]; revert Hst;
         repeat match goal with
                | |- context [if ?b then _ else _] => destruct b
                end; discriminate);
    lazy; lazy in Hv; rewrite ?Hv; reflexivity.
Qed.

Lemma cancel_returns_to_idle_witness :
  let s := Sample.recordingSince 0 in
  let s2 := exec (recorderStopTask Sample.host Sample.page "voice" "blob:1"
                    (Responded 200 (Json Sample.payload))
                    "2026-11-02T10:00:00.000Z")
              (exec (cancelRecording Sample.host Sample.page) s) in
  sessionState s2 = Idle /\ requests s2 = [] /\ audioChunks s2 = ["voice"].
Proof.
  intros s s2.
  pose proof (cancel_returns_to_idle Sample.host Sample.page s "voice"
                "blob:1" (Responded 200 (Json Sample.payload))
                "2026-11-02T10:00:00.000Z" 0%Z 0%Z
                eq_refl (or_introl eq_refl) eq_refl)
    as (_ & _ & H3 & _ & H5 & _ & _ & _ & _ & H10 & _).
  split; [exact H3 | split; [exact H5 | exact H10]].
Defined.

(** C2, as the specification has it, fails: after a cancelled recording
    the chunk array holds what was recorded. *)
Lemma cancel_keeps_chunks :
  ~ Claimed.cancelDiscardsChunks Sample.host Sample.page
      (Sample.recordingSince 0) "voice" "blob:1"
      (Responded 200 (Json Sample.payload)) "2026-11-02T10:00:00.000Z".
Proof.
  intros H. destruct (H (or_introl eq_refl)) as (_ & _ & Hc & _).
  vm_compute in Hc. discriminate Hc.
Qed.

(** C4, as amended.  The pause button toggles: from [Recording] it
    pauses and notes the instant, from [Paused] it resumes and moves
    [startTime] by the length of the pause; from [Idle] and [Stopping] it
    changes nothing. *)
Theorem togglePause_by_state (host : Host) (s : State) (now : Z) :
  consistent s = true ->
  let s' := exec (togglePause host now) s in
  match sessionState s with
  | Recording =>
      sessionState s' = Paused /\ pausedTime s' = now
      /\ startTime s' = startTime s
  | Paused =>
      sessionState s' = Recording
      /\ startTime s' = (startTime s + (now - pausedTime s))%Z
  | Idle | Stopping => s' = s
  end.
Proof.
  intros Hc s'. subst s'.
  flags s; unfold consistent, recorderAgrees in Hc; cbn in Hc;
    try discriminate Hc; unfold exec, togglePause, sessionState; cbn;
    repeat match goal with |- context [if ?b then _ else _] => destruct b end;
    repeat split; try reflexivity; lia.
Qed.

Lemma togglePause_by_state_witness :
  sessionState (exec (togglePause Sample.host 2500) (Sample.recordingSince 0))
  = Paused
  /\ exec (togglePause Sample.host 2500) Sample.fresh = Sample.fresh.
Proof.
  split.
  - apply (togglePause_by_state Sample.host (Sample.recordingSince 0) 2500).
    reflexivity.
  - apply (togglePause_by_state Sample.host Sample.fresh 2500).
    reflexivity.
Defined.

(** C4, as the specification has it, fails: a click on the pause button
    while [Paused] resumes the recording. *)
Lemma pause_while_paused_resumes :
  ~ Claimed.pauseElsewhereIsNoOp Sample.host (Sample.pausedSince 0 2500) 3500.
Proof.
  intros H.
  assert (N : sessionState (Sample.pausedSince 0 2500) <> Recording)
    by (vm_compute; discriminate).
  apply H in N. apply (f_equal isPaused) in N.
  vm_compute in N. discriminate N.
Qed.

(* ================================================================== *)
(** * Malformed payloads and failed requests *)
(* ================================================================== *)

Lemma missing_field_fails_guard (data : JValue) (k : string) :
  In k requiredFields -> Js.truthy (field data k) = false ->
  passesGuard data = false.
Proof.
  unfold passesGuard, requiredFields. cbn [forallb].
  intros [<-|[<-|[<-|[<-|[]]]]] ->;
    rewrite ?andb_false_r, ?andb_false_l; reflexivity.
Qed.

Lemma failed_view (page : Page) (text : string) (s : State) :
  hasView page landing = true -> view (failed page text s) = Some landing.
Proof. intros H. unfold failed. cbn. rewrite H. reflexivity. Qed.

(** C3.  A response with a success status whose payload lacks one of
    [transcript], [bullets], [emotion], [nextPrompt] is not a result: the
    error of [displayInsights] is shown, the landing view is active and
    the journal store is what it was. *)
Theorem missing_field_is_rejected
    (host : Host) (page : Page) (s : State) (url : string) (status : nat)
    (data : JValue) (isoNow : string) (k : string) :
  ok status = true ->
  In k requiredFields ->
  field data k = None ->
  hasView page landing = true ->
  let s' := exec (processAudio host page url (Responded status (Json data))
                    isoNow) s in
  view s' = Some landing
  /\ journalEntries s' = journalEntries s
  /\ alerts s' = alerts s ++ [displayAlert (guardMessage host data)].
Proof.
  intros Hok Hk Hmiss Hv s'. subst s'.
  rewrite processAudio_rejects; [|exact Hok|].
  - split; [apply failed_view, Hv | split; reflexivity].
  - apply (missing_field_fails_guard data k Hk). rewrite Hmiss. reflexivity.
Qed.

Lemma missing_field_is_rejected_witness :
  let data := JObj [ ("transcript", JStr "Today I walked by the river.");
                     ("bullets", JArr []);
                     ("nextPrompt", JStr "What did you notice?") ] in
  let s' := exec (processAudio Sample.host Sample.page "blob:1"
                    (Responded 200 (Json data)) "2026-11-02T10:00:00.000Z")
              Sample.fresh in
  view s' = Some landing /\ journalEntries s' = None.
Proof.
  intros data s'.
  pose proof (missing_field_is_rejected Sample.host Sample.page Sample.fresh
                "blob:1" 200 data "2026-11-02T10:00:00.000Z" "emotion"
                eq_refl (or_intror (or_intror (or_introl eq_refl)))
                eq_refl eq_refl) as (H1 & H2 & _).
  split; [exact H1 | exact H2].
Defined.

(** C10.  The guard tests truthiness: a payload with the four fields in
    which [transcript], or [nextPrompt], is the empty string is refused
    like one that lacks a field. *)
Theorem empty_string_field_is_rejected
    (host : Host) (page : Page) (s : State) (url : string) (status : nat)
    (props : list (string * JValue)) (isoNow : string) :
  ok status = true ->
  Js.lookup "transcript" props = Some (JStr "")
  \/ Js.lookup "nextPrompt" props = Some (JStr "") ->
  hasView page landing = true ->
  let s' := exec (processAudio host page url
                    (Responded status (Json (JObj props))) isoNow) s in
  view s' = Some landing
  /\ journalEntries s' = journalEntries s
  /\ alerts s'
     = alerts s ++ [displayAlert "Invalid data format received from server."].
Proof.
  intros Hok Hempty Hv s'. subst s'.
  rewrite processAudio_rejects; [|exact Hok|].
  - split; [apply failed_view, Hv | split; reflexivity].
  - destruct Hempty as [H|H].
    + apply (missing_field_fails_guard _ "transcript"); [cbn; auto|].
      cbn. rewrite H. reflexivity.
    + apply (missing_field_fails_guard _ "nextPrompt"); [cbn; auto 6|].
      cbn. rewrite H. reflexivity.
Qed.

Lemma empty_string_field_is_rejected_witness :
  let props := [ ("transcript", JStr "");
                 ("bullets", JArr []);
                 ("emotion", JObj [("summary", JStr "Calm.")]);
                 ("nextPrompt", JStr "What did you notice?") ] in
  let s' := exec (processAudio Sample.host Sample.page "blob:1"
                    (Responded 200 (Json (JObj props)))
                    "2026-11-02T10:00:00.000Z")
              Sample.fresh in
  forallb (fun k => isDefined (Js.lookup k props)) requiredFields = true
  /\ view s' = Some landing /\ journalEntries s' = None.
Proof.
  intros props s'.
  pose proof (empty_string_field_is_rejected Sample.host Sample.page
                Sample.fresh "blob:1" 200 props "2026-11-02T10:00:00.000Z"
                eq_refl (or_introl eq_refl) eq_refl) as (H1 & H2 & _).
  split; [reflexivity | split; [exact H1 | exact H2]].
Defined.

(** A response without a success status whose body is JSON with a
    non-empty string [error]: that string is the message shown. *)
Lemma http_error_structured_message
    (host : Host) (page : Page) (s : State) (url : string) (status : nat)
    (props : list (string * JValue)) (text isoNow : string) :
  ok status = false ->
  Js.lookup "error" props = Some (JStr text) ->
  text <> "" ->
  exec (processAudio host page url (Responded status (Json (JObj props)))
          isoNow) s
  = failed page (processAlert text) (awaiting page url s).
Proof.
  intros Hok Herr Htext.
  rewrite processAudio_http_error by exact Hok.
  cbn [field]. rewrite Herr. unfold httpErrorMessage. cbn.
  destruct text; [contradiction|reflexivity].
Qed.

(** The same with a JSON body that has no usable [error]: the message is
    made from the status. *)
Lemma http_error_status_message
    (host : Host) (page : Page) (s : State) (url : string) (status : nat)
    (props : list (string * JValue)) (isoNow : string) :
  ok status = false ->
  Js.truthy (Js.lookup "error" props) = false ->
  exec (processAudio host page url (Responded status (Json (JObj props)))
          isoNow) s
  = failed page (processAlert ("HTTP error! status: " ++ Str.ofNat status))
      (awaiting page url s).
Proof.
  intros Hok Herr.
  rewrite processAudio_http_error by exact Hok.
  cbn [field]. unfold httpErrorMessage.
  destruct (Js.lookup "error" props) as [v|]; [rewrite Herr|]; reflexivity.
Qed.

(** No failure of the request stores an entry. *)
Lemma failed_store (page : Page) (text url : string) (s : State) :
  journalEntries (failed page text (awaiting page url s)) = journalEntries s.
Proof. reflexivity. Qed.

(** C5, on the code: a 502 whose body is an HTML page.  [response.json()]
    rejects, and what is shown is the parser's message, not one made from
    the status; the landing view is active and nothing is stored. *)
Theorem unparsable_error_body_shows_parser_message :
  let syntaxError := mkError "Unexpected token '<'" in
  let s' := exec (processAudio Sample.host Sample.page "blob:1"
                    (Responded 502 (NotJson syntaxError))
                    "2026-11-02T10:00:00.000Z")
              Sample.fresh in
  alerts s' = [processAlert "Unexpected token '<'"]
  /\ alerts s' <> [processAlert "HTTP error! status: 502"]
  /\ view s' = Some landing
  /\ journalEntries s' = journalEntries Sample.fresh.
Proof.
  intros syntaxError s'. subst s'.
  rewrite processAudio_http_error by reflexivity.
  repeat split; try reflexivity.
  vm_compute. discriminate.
Qed.

(* ================================================================== *)
(** * The journal store: delete and export *)
(* ================================================================== *)

(** C6.  [deleteAllData] changes the store only when both confirmations
    are given: then the key is removed (if the store had entries at all),
    the store reads as empty and [getJournalDays] returns no day; with any
    other answers the store is what it was. *)
Theorem deleteAll_needs_both_confirmations
    (host : Host) (page : Page) (s : State) (answer answer' : bool) :
  let s' := exec (deleteAllData host page answer answer') s in
  if answer && answer' then
    readEntries s' = []
    /\ outcome (getJournalDays host) s' = Normal []
    /\ journalEntries s'
       = (if (length (readEntries s) =? 0)%nat then journalEntries s else None)
  else journalEntries s' = journalEntries s.
Proof.
  intros s'. subst s'.
  unfold exec, outcome, deleteAllData, getJournalDays, initCalendar,
    getJournalDays, readEntries, confirm, alert, showView, tryCatch, bind,
    state, update, ret, when, skip.
  destruct (journalEntries s) as [[|e l]|] eqn:Hs;
    destruct answer, answer'; cbn; rewrite ?Hs; cbn;
    try (destruct (calendarView page); cbn; rewrite ?Hs);
    repeat split; reflexivity.
Qed.

Section Exporting.

Variable host : Host.

Lemma exportEntry_run (entry : JValue) (s : State) :
  notNull entry = true ->
  exportEntry host entry s = (Normal (exported entry), s).
Proof. destruct entry; intros H; try discriminate H; reflexivity. Qed.

Lemma exportEntries_run (entries : list JValue) (s : State) :
  forallb notNull entries = true ->
  mapM (exportEntry host) entries s = (Normal (map exported entries), s).
Proof.
  induction entries as [|e l IH]; intros H; [reflexivity|].
  cbn in H. apply andb_true_iff in H. destruct H as [He Hl].
  cbn [mapM map]. unfold bind at 1. rewrite (exportEntry_run e s He).
  unfold bind at 1. rewrite (IH Hl). reflexivity.
Qed.

(** The six fields pass through the export unchanged. *)
Lemma exported_field (entry : JValue) (k : string) :
  In k exportedFields -> field (exported entry) k = field entry k.
Proof.
  unfold exported, stringifyObject, exportedFields. cbn [map].
  intros [<-|[<-|[<-|[<-|[<-|[<-|[]]]]]]];
    destruct (field entry "date"), (field entry "topic"),
      (field entry "transcript"), (field entry "bullets"),
      (field entry "emotion"), (field entry "nextPrompt");
    reflexivity.
Qed.

(** The playback reference does not. *)
Lemma exported_drops_audioBlobUrl (entry : JValue) :
  field (exported entry) "audioBlobUrl" = None.
Proof.
  unfold exported, stringifyObject, exportedFields. cbn [map].
  destruct (field entry "date"), (field entry "topic"),
    (field entry "transcript"), (field entry "bullets"),
    (field entry "emotion"), (field entry "nextPrompt");
    reflexivity.
Qed.

Lemma exportAllData_run (isoNow isoNow' : string) (s : State) :
  storeAgrees s = true ->
  readEntries s <> [] ->
  exists name text,
    exec (exportAllData host isoNow isoNow') s
    = set_alerts (alerts s ++ [text])
        (set_downloads
           (downloads s
            ++ [mkDownload name "application/json"
                  (exportDocument isoNow (readEntries s))]) s).
Proof.
  unfold storeAgrees. intros Hst Hne.
  unfold exec, exportAllData, exportData, tryCatch, bind, state.
  destruct (readEntries s) as [|e l] eqn:Hs; [contradiction|].
  cbn [length Nat.eqb fst snd].
  rewrite (exportEntries_run (e :: l) s Hst).
  eexists. eexists. reflexivity.
Qed.

End Exporting.

(** C7.  Writing the entries of the store to the export document and
    reading the document back gives, entry by entry, the same [date],
    [topic], [transcript], [bullets], [emotion] and [nextPrompt], and no
    [audioBlobUrl]. *)
Theorem export_round_trip
    (host : Host) (isoNow isoNow' : string) (s : State) :
  storeAgrees s = true ->
  readEntries s <> [] ->
  let s' := exec (exportAllData host isoNow isoNow') s in
  exists d : Download,
    downloads s' = downloads s ++ [d]
    /\ length (entriesOf (content d)) = length (readEntries s)
    /\ forall (i : nat) (entry : JValue),
         nth_error (readEntries s) i = Some entry ->
         exists back : JValue,
           nth_error (entriesOf (content d)) i = Some back
           /\ (forall k, In k exportedFields -> field back k = field entry k)
           /\ field back "audioBlobUrl" = None.
Proof.
  intros Hst Hne s'. subst s'.
  destruct (exportAllData_run host isoNow isoNow' s Hst Hne)
    as (name & text & ->).
  eexists. split; [reflexivity|].
  cbn [content]. unfold exportDocument, entriesOf. cbn [field Js.lookup String.eqb Ascii.eqb Bool.eqb].
  split; [apply length_map|].
  intros i entry Hi. exists (exported entry).
  split; [apply map_nth_error, Hi|].
  split; [intros k Hk; apply exported_field, Hk|].
  apply exported_drops_audioBlobUrl.
Qed.

Lemma export_round_trip_witness :
  storeAgrees Sample.twoEntries = true
  /\ readEntries Sample.twoEntries <> []
  /\ exists d : Download,
       downloads (exec (exportAllData Sample.host "2026-11-04T09:00:00.000Z"
                          "2026-11-04T09:00:00.001Z") Sample.twoEntries)
       = [d]
       /\ length (entriesOf (content d)) = 2%nat
       /\ forall (i : nat) (entry : JValue),
            nth_error (readEntries Sample.twoEntries) i = Some entry ->
            exists back : JValue,
              nth_error (entriesOf (content d)) i = Some back
              /\ (forall k, In k exportedFields ->
                            field back k = field entry k)
              /\ field back "audioBlobUrl" = None.
Proof.
  split; [vm_compute; reflexivity|].
  split; [vm_compute; discriminate|].
  vm_cast_no_check
    (export_round_trip Sample.host "2026-11-04T09:00:00.000Z"
       "2026-11-04T09:00:00.001Z" Sample.twoEntries
       ltac:(vm_compute; reflexivity) ltac:(vm_compute; discriminate)).
Defined.

(** C8.  On an empty store [exportAllData] makes no download and only
    says that there is nothing to export; on a store of [n] entries the
    document it hands to the browser has [totalEntries = n] and [n]
    entries. *)
Theorem export_counts
    (host : Host) (isoNow isoNow' : string) (s : State) :
  storeAgrees s = true ->
  let s' := exec (exportAllData host isoNow isoNow') s in
  let n := length (readEntries s) in
  if (n =? 0)%nat then
    downloads s' = downloads s
    /\ alerts s' = alerts s ++ ["No journal entries to export."]
  else
    exists d : Download,
      downloads s' = downloads s ++ [d]
      /\ field (content d) "totalEntries" = Some (numberOf n)
      /\ length (entriesOf (content d)) = n.
Proof.
  intros Hst s' n. subst s' n.
  destruct (readEntries s) as [|e l] eqn:Hs.
  - unfold exec, exportAllData, tryCatch, bind, state. rewrite Hs.
    split; reflexivity.
  - cbn [length Nat.eqb].
    destruct (exportAllData_run host isoNow isoNow' s Hst) as (name & text & ->).
    + rewrite Hs. discriminate.
    + eexists. split; [reflexivity|].
      cbn [content]. rewrite Hs. split; [reflexivity|].
      unfold exportDocument, entriesOf.
      cbn [field Js.lookup String.eqb Ascii.eqb Bool.eqb].
      apply length_map.
Qed.

Lemma export_counts_witness :
  storeAgrees Sample.twoEntries = true
  /\ exists d : Download,
       downloads (exec (exportAllData Sample.host "2026-11-04T09:00:00.000Z"
                          "2026-11-04T09:00:00.001Z") Sample.twoEntries)
       = [d]
       /\ field (content d) "totalEntries" = Some (numberOf 2)
       /\ length (entriesOf (content d)) = 2%nat.
Proof.
  split; [vm_compute; reflexivity|].
  vm_cast_no_check
    (export_counts Sample.host "2026-11-04T09:00:00.000Z"
       "2026-11-04T09:00:00.001Z" Sample.twoEntries
       ltac:(vm_compute; reflexivity)).
Defined.

(* ================================================================== *)
(** * The topic *)
(* ================================================================== *)

Lemma find_deselected (l : list StarterOption) :
  find selectedClass (map deselect l) = None.
Proof. induction l as [|o l IH]; [reflexivity | exact IH]. Qed.

Lemma find_selectNth (l : list StarterOption) :
  forall (i : nat) (o : StarterOption),
    nth_error l i = Some o ->
    find selectedClass (selectNth i (map deselect l))
    = Some (mkStarter (textContent o) true).
Proof.
  induction l as [|a l IH]; intros [|i] o H; try discriminate H.
  - injection H as ->. reflexivity.
  - cbn. apply IH, H.
Qed.

(** C9, as amended.  After any clicks on starter options, typing a
    non-empty text deselects every option, and the topic is then the text
    without its surrounding white space, or [General reflection] when
    nothing but white space was typed.  Without a selected option and
    without text the topic is [General reflection]; a click on an option
    makes the (trimmed) text of that option the topic. *)
Theorem topic_last_action_wins
    (page : Page) (s : State) (clicks : list nat) (typed : string) :
  customStarter page = true ->
  typed <> "" ->
  let s' := exec (inputCustomStarter page typed)
              (clickStarters page clicks s) in
  resolveTopic page s'
  = (if Str.isEmpty (Str.trim typed) then "General reflection"
     else Str.trim typed)
  /\ selectedOption s' = None
  /\ (forall s0 : State,
        selectedOption s0 = None ->
        Str.trim (customStarterValue s0) = "" ->
        resolveTopic page s0 = "General reflection")
  /\ (forall (s0 : State) (i : nat) (o : StarterOption),
        nth_error (starterOptions s0) i = Some o ->
        resolveTopic page (exec (clickStarter page i) s0)
        = Str.trim (textContent o)).
Proof.
  intros Hc Ht s'.
  assert (E : s' = set_starterOptions
                     (map deselect (starterOptions (clickStarters page clicks s)))
                     (set_customStarterValue typed (clickStarters page clicks s))).
  { subst s'. unfold exec, inputCustomStarter. rewrite Hc.
    destruct typed; [contradiction|reflexivity]. }
  assert (Hsel : selectedOption s' = None).
  { rewrite E. unfold selectedOption. cbn. apply find_deselected. }
  split; [|split; [exact Hsel|split]].
  - unfold resolveTopic. rewrite Hsel, Hc, E. cbn.
    destruct (Str.isEmpty (Str.trim typed)); reflexivity.
  - intros s0 H0 Hv. unfold resolveTopic. rewrite H0, Hv.
    destruct (customStarter page); reflexivity.
  - intros s0 i o Hi.
    assert (Hlt : (i <? length (starterOptions s0))%nat = true).
    { apply Nat.ltb_lt, nth_error_Some. rewrite Hi. discriminate. }
    unfold resolveTopic, selectedOption, exec, clickStarter, bind, state.
    rewrite Hlt.
    destruct (customStarter page); cbn;
      rewrite (find_selectNth _ _ _ Hi); reflexivity.
Qed.

Lemma topic_last_action_wins_witness :
  resolveTopic Sample.page
    (exec (inputCustomStarter Sample.page "  my day ")
       (clickStarters Sample.page [0; 1]%nat Sample.fresh))
  = "my day".
Proof.
  exact (proj1 (topic_last_action_wins Sample.page Sample.fresh [0; 1]%nat
                  "  my day " eq_refl ltac:(discriminate))).
Defined.

(** C9, as the specification has it, fails: a typed blank is not the
    topic. *)
Lemma typed_blank_is_not_topic :
  ~ Claimed.typedTextIsTopic Sample.page Sample.fresh [0; 1]%nat " ".
Proof.
  intros H. specialize (H ltac:(discriminate)).
  vm_compute in H. discriminate H.
Qed.

(* ================================================================== *)
(** * More on the timer *)
(* ================================================================== *)

(** A click on the pause button at [now] does not move the elapsed time
    read at [now]: pausing freezes it at its current value and resuming
    continues from the frozen value. *)
Lemma togglePause_no_jump (host : Host) (s : State) (now : Z) :
  elapsed now (exec (togglePause host now) s) = elapsed now s.
Proof.
  unfold exec, togglePause, elapsed.
  destruct s as [v mr ch bl ur st pt ti isr isp isc tx ic so cv cd je al cf rq dl].
  destruct mr as [[rst q live]|]; try destruct rst;
    destruct isr; destruct isp; cbn; lia.
Qed.

Lemma elapsed_monotone (s : State) (now now' : Z) :
  (now <= now')%Z -> (elapsed now s <= elapsed now' s)%Z.
Proof. unfold elapsed. destruct (isPaused s); lia. Qed.

Lemma chain_le (instants : list Z) :
  forall lo hi : Z, chain lo instants hi -> (lo <= hi)%Z.
Proof.
  induction instants as [|t r IH]; intros lo hi H; cbn in H; [exact H|].
  destruct H as [H1 H2]. apply IH in H2. lia.
Qed.

(** X1.  With a clock that does not run backwards the elapsed time never
    decreases, whatever the user pauses and resumes between two readings;
    read after a start at [t0], it is never negative. *)
Theorem elapsed_never_decreases
    (host : Host) (page : Page) (s : State) (presses : list Z)
    (now now' : Z) :
  chain now presses now' ->
  (elapsed now s <= elapsed now' (pauseHistory host presses s))%Z
  /\ (forall (s0 : State) (t0' : Z),
        s = exec (startRecording host page Stream now t0') s0 ->
        (0 <= elapsed now' (pauseHistory host presses s))%Z).
Proof.
  intros H.
  assert (G : (elapsed now s <= elapsed now' (pauseHistory host presses s))%Z).
  { revert s now H. induction presses as [|t r IH]; intros s now H; cbn in H.
    - apply elapsed_monotone, H.
    - destruct H as [H1 H2]. cbn.
      transitivity (elapsed t s); [apply elapsed_monotone, H1|].
      rewrite <- (togglePause_no_jump host s t). apply IH, H2. }
  split; [exact G|].
  intros s0 t0' E.
  assert (Z0 : elapsed now s = 0%Z).
  { rewrite E. unfold exec, startRecording, startTimer, updateTimer, showView,
      elapsed.
    destruct (timerElement page); cbn; lia. }
  lia.
Qed.

Lemma elapsed_never_decreases_witness :
  chain 0 [2500; 3500]%Z 4000
  /\ (elapsed 0 (Sample.recordingSince 0)
      <= elapsed 4000
           (pauseHistory Sample.host [2500; 3500]%Z (Sample.recordingSince 0)))%Z.
Proof.
  split.
  - cbn. lia.
  - apply (elapsed_never_decreases Sample.host Sample.page).
    cbn. lia.
Defined.

Lemma twoDigits_pad (n : Z) :
  (0 <= n < 100)%Z -> Str.padStart0 2 (Str.ofZ n) = twoDigits n.
Proof.
  intros H.
  assert (A : forallb
                (fun k => String.eqb (Str.padStart0 2 (Str.ofZ (Z.of_nat k)))
                            (twoDigits (Z.of_nat k)))
                (seq 0 100) = true) by (vm_compute; reflexivity).
  rewrite forallb_forall in A.
  specialize (A (Z.to_nat n)).
  rewrite Z2Nat.id in A by lia.
  apply String.eqb_eq, A, in_seq. lia.
Qed.

(** X2.  For an elapsed time below 100 minutes the timer text is
    [MM:SS]: the whole minutes and the seconds of the minute, two decimal
    digits each, the seconds below 60. *)
Theorem display_is_minutes_and_seconds (ms : Z) :
  (0 <= ms < 6000000)%Z ->
  display ms
  = (twoDigits (ms / 60000) ++ ":" ++ twoDigits ((ms / 1000) mod 60))%string
  /\ String.length (display ms) = 5%nat
  /\ (0 <= (ms / 1000) mod 60 < 60)%Z.
Proof.
  intros H. unfold display.
  assert (Hs : (0 <= ms / 1000)%Z) by (apply Z.div_pos; lia).
  assert (Hm : (ms / 1000 / 60 = ms / 60000)%Z)
    by (rewrite Z.div_div by lia; reflexivity).
  assert (Hm' : (0 <= ms / 60000 < 100)%Z).
  { split; [apply Z.div_pos; lia | apply Z.div_lt_upper_bound; lia]. }
  assert (Hr : Z.rem (ms / 1000) 60 = ((ms / 1000) mod 60)%Z)
    by (apply Z.rem_mod_nonneg; lia).
  assert (Hr' : (0 <= (ms / 1000) mod 60 < 60)%Z)
    by (apply Z.mod_pos_bound; lia).
  rewrite Hm, Hr, !twoDigits_pad by lia.
  repeat split; try lia.
Qed.

Lemma display_is_minutes_and_seconds_witness :
  display 754321 = "12:34".
Proof.
  rewrite (proj1 (display_is_minutes_and_seconds 754321 ltac:(lia))).
  reflexivity.
Defined.

(* ================================================================== *)
(** * What the processing client changes *)
(* ================================================================== *)

#[local] Instance clientKept_preorder : PreOrder clientKept.
Proof.
  split.
  - intros s. unfold clientKept. repeat split; reflexivity.
  - intros s1 s2 s3 A B. unfold clientKept in *.
    repeat match goal with H : _ /\ _ |- _ => destruct H end.
    repeat split; congruence.
Qed.

#[local] Instance storeKept_preorder : PreOrder storeKept.
Proof.
  split.
  - intros s. reflexivity.
  - intros s1 s2 s3 A B. unfold storeKept in *. congruence.
Qed.

Ltac client_leaf :=
  match goal with
  | |- clientKept ?s _ => unfold clientKept; cbn; repeat split; reflexivity
  end.

Ltac store_leaf :=
  match goal with
  | |- storeKept ?s _ => unfold storeKept; reflexivity
  end.

Create HintDb client.
Create HintDb store.

Ltac client :=
  repeat first [ solve [eauto 1 with client nocore] | frame_step | client_leaf ].

Ltac store :=
  repeat first [ solve [eauto 1 with store nocore] | frame_step | store_leaf ].

Section Client.

Variable host : Host.
Variable page : Page.

Lemma renderBullets_client (bullets : option JValue) :
  frames clientKept (renderBullets host bullets).
Proof.
  unfold renderBullets, renderBullet.
  destruct bullets as [[|b|q|t|items|props]|]; client.
Qed.

#[local] Hint Resolve renderBullets_client : client.

Lemma displayInsights_client (data : JValue) (topic isoNow : string) :
  frames clientKept (displayInsights host page data topic isoNow).
Proof.
  unfold displayInsights, saveJournalEntry, initCalendar, getJournalDays,
    showView, alert.
  client.
Qed.

Lemma initCalendar_store : frames storeKept (initCalendar host page).
Proof. unfold initCalendar, getJournalDays. store. Qed.

Lemma exportAllData_client_store (isoNow isoNow' : string) :
  frames storeKept (exportAllData host isoNow isoNow').
Proof. unfold exportAllData, exportData, exportEntry, alert. store. Qed.

(** [forEach] over the bullets changes nothing; it goes through exactly
    when every bullet renders. *)
Lemma renderBullets_run (bullets : option JValue) (s : State) :
  exists c : Completion unit,
    renderBullets host bullets s = (c, s)
    /\ (c = Normal tt <-> bulletsRender host bullets = true).
Proof.
  unfold renderBullets, bulletsRender.
  destruct bullets as [[|b|q|t|items|props]|];
    try (eexists; split; [reflexivity|]; split; discriminate).
  induction items as [|b l IH].
  - exists (Normal tt). split; [reflexivity|]. split; reflexivity.
  - cbn [forEach forallb]. unfold bind at 1.
    unfold renderBullet, bulletRenders.
    destruct b as [|b0|q0|t0|items0|props0];
      try (eexists; split; [reflexivity|]; split; discriminate);
      cbn [getProp field notNull andb bind ret]; unfold bind, ret;
      destruct (_ || _); cbn [negb andb];
      try (eexists; split; [reflexivity|]; split; discriminate);
      exact IH.
Qed.


Lemma bind_normal {A B : Type} (m : Script A) (k : A -> Script B)
    (s s' : State) (a : A) :
  m s = (Normal a, s') -> bind m k s = k a s'.
Proof. intros H. unfold bind. rewrite H. reflexivity. Qed.

Lemma bind_thrown {A B : Type} (m : Script A) (k : A -> Script B)
    (s s' : State) (e : Error) :
  m s = (Thrown e, s') -> bind m k s = (Thrown e, s').
Proof. intros H. unfold bind. rewrite H. reflexivity. Qed.

Lemma journalDays_run (l : list JValue) (s : State) :
  forallb notNull l = true ->
  mapM (fun entry => d <- getProp host entry "date" ;; ret (localDay host d))
       l s
  = (Normal (map (fun entry => localDay host (field entry "date")) l), s).
Proof.
  induction l as [|e l IH]; intros H; [reflexivity|].
  cbn in H. apply andb_true_iff in H. destruct H as [He Hl].
  cbn [mapM map].
  rewrite (bind_normal _ _ s s (localDay host (field e "date")))
    by (destruct e; try discriminate He; reflexivity).
  rewrite (bind_normal _ _ _ _ _ (IH Hl)). reflexivity.
Qed.

Lemma getJournalDays_run (s : State) :
  storeAgrees s = true ->
  getJournalDays host s = (Normal (journalDays host s), s).
Proof.
  intros H. unfold getJournalDays, journalDays, bind, state.
  apply journalDays_run, H.
Qed.


(** A payload that passes the guard is an object whose four required
    fields are truthy. *)
Lemma passesGuard_fields (data : JValue) :
  passesGuard data = true ->
  exists props : list (string * JValue),
    data = JObj props
    /\ Js.truthy (Js.lookup "transcript" props) = true
    /\ Js.truthy (Js.lookup "bullets" props) = true
    /\ Js.truthy (Js.lookup "emotion" props) = true
    /\ Js.truthy (Js.lookup "nextPrompt" props) = true.
Proof.
  unfold passesGuard, requiredFields.
  destruct data as [|b|q|t|items|props]; try discriminate.
  cbn. intros H. exists props.
  repeat (apply andb_true_iff in H; destruct H as [? H]).
  auto.
Qed.

(** What [displayInsights] does with a payload that passes the guard. *)
Lemma displayInsights_passes (data : JValue) (topic isoNow : string)
    (s : State) :
  passesGuard data = true ->
  displayInsights host page data topic isoNow s
  = tryCatch
      (when (reflectionList page)
         (renderBullets host (field data "bullets")) ;;
       s0 <- state ;;
       update (fun s1 =>
                 set_journalEntries
                   (Some (readEntries s1
                          ++ [savedEntry isoNow topic data (audioUrl s0)])) s1) ;;
       initCalendar host page ;;
       showView page insights)
      (fun error =>
         alert (displayAlert (messageOf error)) ;; showView page landing) s.
Proof.
  intros H. destruct (passesGuard_fields data H) as (props & -> & T1 & T2 & T3 & T4).
  unfold displayInsights, tryCatch. cbn [getProp field].
  unfold bind at 1. unfold ret at 1.
  unfold bind at 1. unfold ret at 1.
  unfold bind at 1. unfold ret at 1.
  unfold bind at 1. unfold ret at 1.
  rewrite T1, T2, T3, T4. cbn [negb orb].
  reflexivity.
Qed.


Lemma tryCatch_normal {A : Type} (m : Script A) (h : Error -> Script A)
    (s s' : State) (a : A) :
  m s = (Normal a, s') -> tryCatch m h s = (Normal a, s').
Proof. intros H. unfold tryCatch. rewrite H. reflexivity. Qed.

Lemma tryCatch_thrown {A : Type} (m : Script A) (h : Error -> Script A)
    (s s' : State) (e : Error) :
  m s = (Thrown e, s') -> tryCatch m h s = h e s'.
Proof. intros H. unfold tryCatch. rewrite H. reflexivity. Qed.

(** A success status with a body that is not JSON. *)
Lemma processAudio_bad_body (url : string) (status : nat)
    (syntaxError : Error) (isoNow : string) (s : State) :
  ok status = true ->
  exec (processAudio host page url (Responded status (NotJson syntaxError))
          isoNow) s
  = failed page (processAlert (messageOf syntaxError)) (awaiting page url s).
Proof.
  intros Hok.
  unfold failed, awaiting.
  unfold exec, processAudio, tryCatch, bind, update, state, showView, json,
    ret, throw, alert.
  cbn. rewrite Hok. reflexivity.
Qed.

Lemma savedEntry_notNull (isoNow topic : string) (data : JValue)
    (url : option string) :
  notNull (savedEntry isoNow topic data url) = true.
Proof. reflexivity. Qed.


(** With a list to render them in, bullets that do not render end
    [displayInsights] in its [catch], before anything is stored. *)
Lemma displayInsights_unrenderable (data : JValue) (topic isoNow : string)
    (s : State) :
  passesGuard data = true ->
  reflectionList page = true ->
  bulletsRender host (field data "bullets") = false ->
  exists e : Error,
    displayInsights host page data topic isoNow s
    = (Normal tt, failed page (displayAlert (messageOf e)) s).
Proof.
  intros Hg Hl Hb.
  rewrite displayInsights_passes by exact Hg. rewrite Hl. cbn [when].
  destruct (renderBullets_run (field data "bullets") s) as (c & E & Hc).
  destruct c as [[]|e].
  - rewrite (proj1 Hc eq_refl) in Hb. discriminate Hb.
  - exists e. rewrite (tryCatch_thrown _ _ s s e); [reflexivity|].
    apply bind_thrown, E.
Qed.

(** Whatever [displayInsights] does with a payload that passes the
    guard, the store is what it was, or has the one new entry at its end. *)
Lemma displayInsights_store (data : JValue) (topic isoNow : string)
    (s : State) :
  passesGuard data = true ->
  let s' := exec (displayInsights host page data topic isoNow) s in
  readEntries s' = readEntries s
  \/ readEntries s'
     = readEntries s ++ [savedEntry isoNow topic data (audioUrl s)].
Proof.
  intros Hg s'. subst s'. unfold exec.
  rewrite displayInsights_passes by exact Hg.
  destruct (when (reflectionList page)
              (renderBullets host (field data "bullets")) s)
    as [[[]|e] s0] eqn:R.
  - assert (s0 = s).
    { destruct (reflectionList page); cbn [when] in R.
      - destruct (renderBullets_run (field data "bullets") s) as (c & E & _).
        rewrite E in R. congruence.
      - unfold skip, ret in R. congruence. }
    subst s0. right.
    set (s1 := set_journalEntries
                 (Some (readEntries s
                        ++ [savedEntry isoNow topic data (audioUrl s)])) s).
    pose proof (initCalendar_store s1) as K. unfold exec, storeKept in K.
    destruct (initCalendar host page s1) as [[[]|e] s2] eqn:C; cbn [snd] in K.
    + rewrite (tryCatch_normal _ _ s
                 (set_view (if hasView page insights then Some insights
                            else None) s2) tt).
      * unfold readEntries. cbn. rewrite K. reflexivity.
      * rewrite (bind_normal _ _ _ _ _ R).
        rewrite (bind_normal _ _ s s s) by reflexivity.
        rewrite (bind_normal _ _ s s1 tt) by reflexivity.
        rewrite (bind_normal _ _ _ _ _ C). reflexivity.
    + rewrite (tryCatch_thrown _ _ s s2 e).
      * unfold readEntries. cbn. rewrite K. reflexivity.
      * rewrite (bind_normal _ _ _ _ _ R).
        rewrite (bind_normal _ _ s s s) by reflexivity.
        rewrite (bind_normal _ _ s s1 tt) by reflexivity.
        apply bind_thrown, C.
  - left. rewrite (tryCatch_thrown _ _ s s0 e) by (apply bind_thrown, R).
    assert (s0 = s).
    { destruct (reflectionList page); cbn [when] in R.
      - destruct (renderBullets_run (field data "bullets") s) as (c & E & _).
        rewrite E in R. congruence.
      - unfold skip, ret in R. congruence. }
    subst s0. reflexivity.
Qed.

(** Every run of [processAudio] sends one request: the chunks put
    together, with the topic. *)
Lemma processAudio_requests (url : string) (answer : FetchResult)
    (isoNow : string) (s : State) :
  requests (exec (processAudio host page url answer isoNow) s)
  = requests s
    ++ [mkRequest (String.concat "" (audioChunks s)) (resolveTopic page s)].
Proof.
  destruct answer as [reason|status [data|syntaxError]].
  - rewrite processAudio_network_error. reflexivity.
  - destruct (ok status) eqn:Hok.
    + rewrite processAudio_success_status by exact Hok.
      destruct (displayInsights_client data (resolveTopic page s)
                  isoNow (awaiting page url s))
        as (_ & _ & _ & _ & _ & _ & _ & _ & _ & K & _).
      rewrite K. reflexivity.
    + rewrite processAudio_http_error by exact Hok. reflexivity.
  - destruct (ok status) eqn:Hok.
    + rewrite processAudio_bad_body by exact Hok. reflexivity.
    + rewrite processAudio_http_error by exact Hok. reflexivity.
Qed.

End Client.




(** X4.  With a list element for the bullets in the page, a payload that
    passes the guard but whose [bullets] cannot be rendered (not an array,
    a [null] bullet, a [type] that is no class token) ends in the [catch]
    of [displayInsights]: an alert, the landing view, nothing stored. *)
Theorem unrenderable_bullets_are_rejected
    (host : Host) (page : Page) (s : State) (url : string) (status : nat)
    (data : JValue) (isoNow : string) :
  ok status = true ->
  passesGuard data = true ->
  reflectionList page = true ->
  bulletsRender host (field data "bullets") = false ->
  hasView page landing = true ->
  let s' := exec (processAudio host page url (Responded status (Json data))
                    isoNow) s in
  view s' = Some landing
  /\ journalEntries s' = journalEntries s
  /\ exists message : string,
       alerts s' = alerts s ++ [displayAlert message].
Proof.
  intros Hok Hg Hl Hb Hv s'. subst s'.
  rewrite processAudio_success_status by exact Hok.
  destruct (displayInsights_unrenderable host page data (resolveTopic page s)
              isoNow (awaiting page url s) Hg Hl Hb) as (e & E).
  unfold exec. rewrite E. cbn [snd].
  split; [apply failed_view, Hv|].
  split; [reflexivity|].
  exists (messageOf e). reflexivity.
Qed.

Lemma unrenderable_bullets_are_rejected_witness :
  let data := JObj [ ("transcript", JStr "Today I walked by the river.");
                     ("bullets", JStr "You took time outside.");
                     ("emotion", JObj []);
                     ("nextPrompt", JStr "What did you notice?") ] in
  let s' := exec (processAudio Sample.host Sample.page "blob:1"
                    (Responded 200 (Json data)) "2026-11-02T10:00:00.000Z")
              Sample.fresh in
  view s' = Some landing /\ journalEntries s' = None.
Proof.
  intros data s'.
  pose proof (unrenderable_bullets_are_rejected Sample.host Sample.page
                Sample.fresh "blob:1" 200 data "2026-11-02T10:00:00.000Z"
                eq_refl eq_refl eq_refl eq_refl eq_refl) as (H1 & H2 & _).
  split; [exact H1 | exact H2].
Defined.

Lemma processAudio_store
    (host : Host) (page : Page) (s : State) (url : string)
    (answer : FetchResult) (isoNow : string) :
  let s' := exec (processAudio host page url answer isoNow) s in
  readEntries s' = readEntries s
  \/ exists (status : nat) (data : JValue),
       answer = Responded status (Json data)
       /\ ok status = true
       /\ passesGuard data = true
       /\ readEntries s'
          = readEntries s
            ++ [savedEntry isoNow (resolveTopic page s) data (Some url)].
Proof.
  intros s'. subst s'.
  destruct answer as [reason|status [data|syntaxError]].
  - left. rewrite processAudio_network_error. reflexivity.
  - destruct (ok status) eqn:Hok.
    + destruct (passesGuard data) eqn:Hg.
      * rewrite processAudio_success_status by exact Hok.
        destruct (displayInsights_store host page data (resolveTopic page s)
                    isoNow (awaiting page url s) Hg) as [K|K].
        -- left. exact K.
        -- right. exists status, data. repeat split; try assumption.
      * left. rewrite processAudio_rejects by assumption. reflexivity.
    + left. rewrite processAudio_http_error by exact Hok. reflexivity.
  - destruct (ok status) eqn:Hok.
    + left. rewrite processAudio_bad_body by exact Hok. reflexivity.
    + left. rewrite processAudio_http_error by exact Hok. reflexivity.
Qed.

(** X5.  Whatever the server answers, [processAudio] leaves the store as
    it was or adds exactly one entry at its end, and it adds one only for
    a success status with a JSON payload that passes the guard: nothing
    partial is ever stored. *)
Theorem processing_stores_whole_entries_only
    (host : Host) (page : Page) (s : State) (url : string)
    (answer : FetchResult) (isoNow : string) :
  let s' := exec (processAudio host page url answer isoNow) s in
  readEntries s' = readEntries s
  \/ exists (status : nat) (data : JValue),
       answer = Responded status (Json data)
       /\ ok status = true
       /\ passesGuard data = true
       /\ readEntries s'
          = readEntries s
            ++ [savedEntry isoNow (resolveTopic page s) data (Some url)].
Proof. apply processAudio_store. Qed.

(* ================================================================== *)
(** * Handlers that return *)
(* ================================================================== *)

Lemma returns_ret {A : Type} (a : A) : returns (ret a).
Proof. intros s. exists a. reflexivity. Qed.

Lemma returns_state : returns state.
Proof. intros s. exists s. reflexivity. Qed.

Lemma returns_update (f : State -> State) : returns (update f).
Proof. intros s. exists tt. reflexivity. Qed.

Lemma returns_bind {A B : Type} (m : Script A) (k : A -> Script B) :
  returns m -> (forall a, returns (k a)) -> returns (bind m k).
Proof.
  intros Hm Hk s. destruct (Hm s) as (a & Ha).
  unfold outcome, bind in *. destruct (m s) as [c s']. cbn in Ha. subst c.
  apply Hk.
Qed.

Lemma returns_tryCatch {A : Type} (m : Script A) (h : Error -> Script A) :
  (forall e, returns (h e)) -> returns (tryCatch m h).
Proof.
  intros Hh s. unfold outcome, tryCatch.
  destruct (m s) as [[a|e] s'].
  - exists a. reflexivity.
  - apply Hh.
Qed.

Lemma returns_when (b : bool) (m : Script unit) :
  returns m -> returns (when b m).
Proof. intros Hm. destruct b; [exact Hm | apply returns_ret]. Qed.

Create HintDb returning.

Ltac returning :=
  repeat first
    [ solve [eauto 1 with returning nocore]
    | lazymatch goal with
      | |- returns (ret _) => apply returns_ret
      | |- returns skip => apply returns_ret
      | |- returns state => apply returns_state
      | |- returns (update _) => apply returns_update
      | |- returns (bind _ _) => apply returns_bind; [|intros ?]
      | |- returns (tryCatch _ _) => apply returns_tryCatch; intros ?
      | |- returns (when _ _) => apply returns_when
      | |- returns (if ?b then _ else _) => destruct b
      end ].

Section Returning.

Variable host : Host.
Variable page : Page.

Lemma alert_returns (text : string) : returns (alert text).
Proof. unfold alert. returning. Qed.

Lemma showView_returns (v : View) : returns (showView page v).
Proof. unfold showView. returning. Qed.

#[local] Hint Resolve alert_returns showView_returns : returning.

Lemma processAudio_returns (url : string) (answer : FetchResult)
    (isoNow : string) :
  returns (processAudio host page url answer isoNow).
Proof. unfold processAudio. returning. Qed.

Lemma startRecording_returns (media : UserMedia) (now now' : Z) :
  returns (startRecording host page media now now').
Proof. unfold startRecording. returning. Qed.

Lemma exportAllData_returns (isoNow isoNow' : string) :
  returns (exportAllData host isoNow isoNow').
Proof. unfold exportAllData. returning. Qed.

Lemma deleteAllData_returns (answer answer' : bool) :
  returns (deleteAllData host page answer answer').
Proof. unfold deleteAllData, confirm. returning. Qed.

Lemma updateTimer_returns (now : Z) : returns (updateTimer page now).
Proof. unfold updateTimer. returning. Qed.

Lemma clickStarter_returns (i : nat) : returns (clickStarter page i).
Proof. unfold clickStarter. returning. Qed.

Lemma inputCustomStarter_returns (value : string) :
  returns (inputCustomStarter page value).
Proof. unfold inputCustomStarter. returning. Qed.

(** What the recorder's stop task does when there is one queued. *)
Lemma recorderStopTask_run (data : Blob) (url : string)
    (answer : FetchResult) (isoNow : string) (s : State)
    (r : MediaRecorder) :
  mediaRecorder s = Some r ->
  stopQueued r = true ->
  recorderStopTask host page data url answer isoNow s
  = (Normal tt,
     set_mediaRecorder (Some (mkRecorder (recState r) false false))
       (if isCancelled s then delivered data s
        else exec (processAudio host page url answer isoNow)
               (delivered data s))).
Proof.
  intros Hr Hq.
  unfold recorderStopTask, delivered.
  rewrite (bind_normal _ _ s s s) by reflexivity.
  rewrite Hr, Hq.
  set (s1 := set_audioChunks (audioChunks s ++ [data])
               (set_mediaRecorder
                  (Some (mkRecorder (recState r) false (tracksLive r))) s)).
  rewrite (bind_normal _ _ s _ tt) by reflexivity.
  rewrite (bind_normal _ _ _ s1 tt) by reflexivity.
  unfold onStop.
  rewrite (bind_normal _ _ s1 s1 s1) by reflexivity.
  change (isCancelled s1) with (isCancelled s).
  destruct (isCancelled s); cbn [negb when].
  - rewrite (bind_normal _ _ s1 s1 tt) by reflexivity. reflexivity.
  - destruct (processAudio_returns url answer isoNow s1) as ([] & Ho).
    pose proof (processAudio_kept host page url answer isoNow s1)
      as (Km & _).
    unfold outcome, exec in *.
    destruct (processAudio host page url answer isoNow s1) as [c s2] eqn:P.
    cbn [fst snd] in *. subst c.
    rewrite (bind_normal _ _ s1 s2 tt P).
    unfold callRecorder.
    rewrite (bind_normal _ _ s2 s2 s2) by reflexivity.
    rewrite Km. reflexivity.
Qed.

End Returning.

(* ================================================================== *)
(** * Stop, and what the recorder's task does afterwards *)
(* ================================================================== *)

Ltac not_recording Hc Hst :=
  unfold consistent, recorderAgrees, sessionState, stopPending in Hc, Hst;
  cbn in Hc, Hst; try discriminate Hc;
  try (exfalso; destruct Hst as [Hst|Hst]; revert Hst;
       repeat match goal with
              | |- context [if ?b then _ else _] => destruct b
              end; discriminate).

(** After [stopRecording] in a recording: the recorder is inactive with
    its task queued, the flags say [Stopping]. *)
Lemma stopRecording_run (host : Host) (page : Page) (s : State) :
  consistent s = true ->
  sessionState s = Recording \/ sessionState s = Paused ->
  exists live : bool,
    exec (stopRecording host page) s
    = set_view (if hasView page processing then Some processing else None)
        (set_isRecording false
           (set_timerInterval false
              (set_mediaRecorder (Some (mkRecorder inactive true live))
                 (set_isCancelled false s)))).
Proof.
  intros Hc Hst.
  flags s; not_recording Hc Hst; exists live; reflexivity.
Qed.

Lemma processAudio_audioBlob (host : Host) (page : Page) (url : string)
    (answer : FetchResult) (isoNow : string) (s : State) :
  audioBlob (exec (processAudio host page url answer isoNow) s)
  = Some (String.concat "" (audioChunks s)).
Proof.
  destruct answer as [reason|status [data|syntaxError]].
  - rewrite processAudio_network_error. reflexivity.
  - destruct (ok status) eqn:Hok.
    + rewrite processAudio_success_status by exact Hok.
      destruct (displayInsights_client host page data (resolveTopic page s)
                  isoNow (awaiting page url s))
        as (_ & _ & K & _).
      rewrite K. reflexivity.
    + rewrite processAudio_http_error by exact Hok. reflexivity.
  - destruct (ok status) eqn:Hok.
    + rewrite processAudio_bad_body by exact Hok. reflexivity.
    + rewrite processAudio_http_error by exact Hok. reflexivity.
Qed.

(** X6.  A stop in a recording (running or paused) shows the processing
    view, clears the timer interval and sends nothing yet; when the
    recorder then delivers its data, exactly one request is sent, with all
    that was recorded and the resolved topic, whatever the server will
    answer; the session is [Idle] again and the microphone released. *)
Theorem stop_sends_one_request
    (host : Host) (page : Page) (s : State) (data : Blob) (url : string)
    (answer : FetchResult) (isoNow : string) :
  consistent s = true ->
  sessionState s = Recording \/ sessionState s = Paused ->
  hasView page processing = true ->
  let s1 := exec (stopRecording host page) s in
  let s2 := exec (recorderStopTask host page data url answer isoNow) s1 in
  let audio := String.concat "" (audioChunks s ++ [data]) in
  sessionState s1 = Stopping
  /\ view s1 = Some processing
  /\ timerInterval s1 = false
  /\ requests s1 = requests s
  /\ requests s2 = requests s ++ [mkRequest audio (resolveTopic page s)]
  /\ audioBlob s2 = Some audio
  /\ sessionState s2 = Idle
  /\ option_map tracksLive (mediaRecorder s2) = Some false.
Proof.
  intros Hc Hst Hv s1 s2 audio.
  destruct (stopRecording_run host page s Hc Hst) as (live & E1).
  assert (E1' : s1 = set_view (if hasView page processing then Some processing
                               else None)
                       (set_isRecording false
                          (set_timerInterval false
                             (set_mediaRecorder
                                (Some (mkRecorder inactive true live))
                                (set_isCancelled false s))))) by exact E1.
  clearbody s1. clear E1.
  assert (E2 : s2 = set_mediaRecorder (Some (mkRecorder inactive false false))
                      (exec (processAudio host page url answer isoNow)
                         (delivered data s1))).
  { subst s2. unfold exec at 1.
    rewrite (recorderStopTask_run host page data url answer isoNow s1
               (mkRecorder inactive true live))
      by (rewrite ?E1'; reflexivity).
    rewrite E1'. reflexivity. }
  clearbody s2.
  pose proof (processAudio_kept host page url answer isoNow (delivered data s1))
    as (_ & K2 & _ & K4 & _).
  repeat split.
  - rewrite E1'. reflexivity.
  - rewrite E1'. cbn. rewrite Hv. reflexivity.
  - rewrite E1'. reflexivity.
  - rewrite E1'. reflexivity.
  - rewrite E2. cbn [requests set_mediaRecorder].
    rewrite processAudio_requests, E1'. reflexivity.
  - rewrite E2. cbn [audioBlob set_mediaRecorder].
    rewrite processAudio_audioBlob, E1'. reflexivity.
  - rewrite E2. unfold sessionState, stopPending.
    cbn [isRecording isCancelled mediaRecorder set_mediaRecorder stopQueued].
    rewrite K2, E1'. reflexivity.
  - rewrite E2. reflexivity.
Qed.

Lemma stop_sends_one_request_witness :
  let s2 := exec (recorderStopTask Sample.host Sample.page "voice" "blob:1"
                    (Rejected (mkError "Failed to fetch"))
                    "2026-11-02T10:00:00.000Z")
              (exec (stopRecording Sample.host Sample.page)
                 (Sample.pausedSince 0 2500)) in
  requests s2 = [mkRequest "voice" "General reflection"]
  /\ sessionState s2 = Idle.
Proof.
  intros s2.
  pose proof (stop_sends_one_request Sample.host Sample.page
                (Sample.pausedSince 0 2500) "voice" "blob:1"
                (Rejected (mkError "Failed to fetch"))
                "2026-11-02T10:00:00.000Z"
                eq_refl (or_intror eq_refl) eq_refl)
    as (_ & _ & _ & _ & H5 & _ & H7 & _).
  split; [exact H5 | exact H7].
Defined.

(** X7.  When the recorder's stop task runs, the tracks of the stream
    are stopped on every path: cancelled or not, whatever the server
    answers, whether or not an entry is stored. *)
Theorem recorder_task_releases_microphone
    (host : Host) (page : Page) (s : State) (r : MediaRecorder)
    (data : Blob) (url : string) (answer : FetchResult) (isoNow : string) :
  mediaRecorder s = Some r ->
  stopQueued r = true ->
  let s' := exec (recorderStopTask host page data url answer isoNow) s in
  option_map tracksLive (mediaRecorder s') = Some false
  /\ stopPending s' = false
  /\ outcome (recorderStopTask host page data url answer isoNow) s = Normal tt.
Proof.
  intros Hr Hq s'. subst s'. unfold exec, outcome, stopPending.
  rewrite (recorderStopTask_run host page data url answer isoNow s r Hr Hq).
  repeat split.
Qed.

Lemma recorder_task_releases_microphone_witness :
  option_map tracksLive
    (mediaRecorder
       (exec (recorderStopTask Sample.host Sample.page "voice" "blob:1"
                (Responded 500 (NotJson (mkError "Unexpected end of input")))
                "2026-11-02T10:00:00.000Z")
          (exec (stopRecording Sample.host Sample.page)
             (Sample.recordingSince 0))))
  = Some false.
Proof.
  apply (recorder_task_releases_microphone Sample.host Sample.page _
           (mkRecorder inactive true true));
    reflexivity.
Defined.

(* ================================================================== *)
(** * All events *)
(* ================================================================== *)

Lemma returns_tt (m : Script unit) (s : State) :
  returns m -> outcome m s = Normal tt.
Proof. intros H. destruct (H s) as ([] & E). exact E. Qed.

(** X8.  In a consistent state, so in every state the events reach, no
    handler ends with an uncaught exception. *)
Theorem handlers_return
    (host : Host) (page : Page) (s : State) (e : Event) :
  consistent s = true ->
  outcome (handle host page e) s = Normal tt.
Proof.
  intros Hc. destruct e; cbn [handle].
  - apply returns_tt, startRecording_returns.
  - unfold outcome, togglePause.
    flags s; unfold consistent, recorderAgrees in Hc; cbn in Hc;
      try discriminate Hc; reflexivity.
  - unfold outcome, stopRecording.
    flags s; unfold consistent, recorderAgrees in Hc; cbn in Hc;
      try discriminate Hc; reflexivity.
  - unfold outcome, cancelRecording.
    flags s; unfold consistent, recorderAgrees in Hc; cbn in Hc;
      try discriminate Hc; reflexivity.
  - destruct (mediaRecorder s) as [r|] eqn:Hr.
    + destruct (stopQueued r) eqn:Hq.
      * unfold outcome.
        rewrite (recorderStopTask_run host page data url answer isoNow s r Hr Hq).
        reflexivity.
      * unfold outcome, recorderStopTask, bind, state. rewrite Hr, Hq.
        reflexivity.
    + unfold outcome, recorderStopTask, bind, state. rewrite Hr. reflexivity.
  - apply returns_tt. returning. apply updateTimer_returns.
  - apply returns_tt, clickStarter_returns.
  - apply returns_tt, inputCustomStarter_returns.
  - apply returns_tt, showView_returns.
  - apply returns_tt, showView_returns.
  - apply returns_tt, showView_returns.
  - apply returns_tt, exportAllData_returns.
  - apply returns_tt, deleteAllData_returns.
Qed.

Lemma handlers_return_witness :
  outcome (handle Sample.host Sample.page (ClickPause 2500))
    (Sample.recordingSince 0)
  = Normal tt.
Proof.
  apply (handlers_return Sample.host Sample.page). reflexivity.
Defined.

#[local] Instance storeGrown_preorder : PreOrder storeGrown.
Proof.
  split.
  - intros s. exists []. rewrite app_nil_r. reflexivity.
  - intros s1 s2 s3 (l & A) (l' & B). exists (l ++ l').
    rewrite B, A, app_assoc. reflexivity.
Qed.

Lemma storeKept_storeGrown (s s' : State) : storeKept s s' -> storeGrown s s'.
Proof.
  unfold storeKept, storeGrown, readEntries. intros ->. exists [].
  rewrite app_nil_r. reflexivity.
Qed.

Section Store.

Variable host : Host.
Variable page : Page.

Lemma callRecorder_store (name : string)
    (method : MediaRecorder -> option MediaRecorder) :
  frames storeKept (callRecorder host name method).
Proof.
  intros s. unfold exec, callRecorder, bind, state.
  destruct (mediaRecorder s) as [r|]; [|reflexivity].
  destruct (method r); reflexivity.
Qed.

#[local] Hint Resolve callRecorder_store : store.

Lemma updateTimer_store (now : Z) : frames storeKept (updateTimer page now).
Proof. unfold updateTimer. store. Qed.

#[local] Hint Resolve updateTimer_store : store.

Lemma startRecording_store (media : UserMedia) (now now' : Z) :
  frames storeKept (startRecording host page media now now').
Proof.
  unfold startRecording, startTimer, showView, alert.
  destruct media; store.
Qed.

Lemma togglePause_store (now : Z) : frames storeKept (togglePause host now).
Proof. unfold togglePause. store. Qed.

Lemma stopRecording_store : frames storeKept (stopRecording host page).
Proof. unfold stopRecording, clearTimer, showView. store. Qed.

Lemma cancelRecording_store : frames storeKept (cancelRecording host page).
Proof. unfold cancelRecording, clearTimer, showView. store. Qed.


Lemma recorderStopTask_store (data : Blob) (url : string)
    (answer : FetchResult) (isoNow : string) :
  frames storeGrown (recorderStopTask host page data url answer isoNow).
Proof.
  intros s.
  destruct (mediaRecorder s) as [r|] eqn:Hr.
  - destruct (stopQueued r) eqn:Hq.
    + unfold exec.
      rewrite (recorderStopTask_run host page data url answer isoNow s r Hr Hq).
      cbn [snd]. unfold storeGrown, delivered. rewrite Hr.
      destruct (isCancelled s).
      * exists []. rewrite app_nil_r. reflexivity.
      * match goal with
        | |- context [exec (processAudio _ _ _ _ _) ?x] =>
            destruct (processAudio_store host page x url answer isoNow)
              as [K|(status & d & _ & _ & _ & K)]
        end.
        -- exists []. rewrite app_nil_r. exact K.
        -- eexists. exact K.
    + unfold exec, recorderStopTask, bind, state. rewrite Hr, Hq. reflexivity.
  - unfold exec, recorderStopTask, bind, state. rewrite Hr. reflexivity.
Qed.

Lemma deleteAllData_unconfirmed (answer answer' : bool) :
  answer && answer' = false ->
  frames storeKept (deleteAllData host page answer answer').
Proof.
  intros H s.
  unfold exec, deleteAllData, confirm, alert, bind, state, update, ret.
  destruct (length (readEntries s) =? 0)%nat; [reflexivity|].
  destruct answer; [|reflexivity].
  destruct answer'; [discriminate H|reflexivity].
Qed.

End Store.

(** X9.  No event but a delete with both confirmations removes, changes
    or reorders a stored entry: after any other event the store holds
    what it held, possibly followed by new entries. *)
Theorem entries_are_never_lost
    (host : Host) (page : Page) (s : State) (e : Event) :
  e <> ClickDelete true true ->
  exists added : list JValue,
    readEntries (step host page s e) = readEntries s ++ added.
Proof.
  intros He. change (storeGrown s (step host page s e)).
  assert (V : forall v, frames storeKept (showView page v))
    by (intros v; unfold showView; store).
  unfold step. destruct e; cbn [handle].
  - apply storeKept_storeGrown, startRecording_store.
  - apply storeKept_storeGrown, togglePause_store.
  - apply storeKept_storeGrown, stopRecording_store.
  - apply storeKept_storeGrown, cancelRecording_store.
  - apply recorderStopTask_store.
  - apply storeKept_storeGrown.
    assert (F : frames storeKept
                  (s0 <- state ;; when (timerInterval s0) (updateTimer page now)))
      by (unfold updateTimer; store).
    apply F.
  - apply storeKept_storeGrown.
    assert (F : frames storeKept (clickStarter page i))
      by (unfold clickStarter; store).
    apply F.
  - apply storeKept_storeGrown.
    assert (F : frames storeKept (inputCustomStarter page value))
      by (unfold inputCustomStarter; store).
    apply F.
  - apply storeKept_storeGrown, V.
  - apply storeKept_storeGrown, V.
  - apply storeKept_storeGrown, V.
  - apply storeKept_storeGrown, exportAllData_client_store.
  - apply storeKept_storeGrown, deleteAllData_unconfirmed.
    destruct answer, answer'; try reflexivity. contradiction He. reflexivity.
Qed.

Lemma entries_are_never_lost_witness :
  exists added : list JValue,
    readEntries (step Sample.host Sample.page Sample.twoEntries
                   (ClickDelete true false))
    = readEntries Sample.twoEntries ++ added.
Proof.
  apply (entries_are_never_lost Sample.host Sample.page). discriminate.
Defined.

(** X10.  [stopRecording] and [cancelRecording] are idempotent: a second
    click on the button changes nothing more. *)
Theorem stop_and_cancel_are_idempotent
    (host : Host) (page : Page) (s : State) :
  exec (stopRecording host page) (exec (stopRecording host page) s)
  = exec (stopRecording host page) s
  /\ exec (cancelRecording host page) (exec (cancelRecording host page) s)
     = exec (cancelRecording host page) s
  /\ exec (cancelRecording host page) (exec (stopRecording host page) s)
     = exec (stopRecording host page) s.
Proof.
  flags s; lazy; repeat split; reflexivity.
Qed.

(** X11.  What a cancelled recording left in the chunk array is never
    sent: when the next recording is stopped, the one request carries the
    data of that recording only. *)
Theorem cancelled_audio_is_never_sent
    (host : Host) (page : Page) (s : State)
    (data : Blob) (url : string) (answer : FetchResult) (isoNow : string)
    (t t' : Z)
    (data' : Blob) (url' : string) (answer' : FetchResult) (isoNow' : string) :
  consistent s = true ->
  sessionState s = Recording \/ sessionState s = Paused ->
  let s' := run host page
              [ ClickCancel;
                RecorderStopped data url answer isoNow;
                ClickRecord Stream t t';
                ClickStop;
                RecorderStopped data' url' answer' isoNow' ] s in
  requests s' = requests s ++ [mkRequest data' (resolveTopic page s)]
  /\ audioBlob s' = Some data'.
Proof.
  intros Hc Hst s'. subst s'.
  cbn [run fold_left].
  match goal with
  | |- context [step _ _ ?x (RecorderStopped data' _ _ _)] =>
      remember x as s4 eqn:E4
  end.
  unfold step. cbn [handle].
  assert (F : mediaRecorder s4 = Some (mkRecorder inactive true true)
              /\ isCancelled s4 = false
              /\ audioChunks s4 = []
              /\ requests s4 = requests s
              /\ starterOptions s4 = starterOptions s
              /\ customStarterValue s4 = customStarterValue s).
  { subst s4. unfold step. cbn [handle]. destruct page as [views timer custom bullets calendar].
    flags s; not_recording Hc Hst; destruct timer; lazy;
      repeat split; reflexivity. }
  clear E4. destruct F as (F1 & F2 & F3 & F4 & F5 & F6).
  assert (E5 : exec (recorderStopTask host page data' url' answer' isoNow') s4
               = set_mediaRecorder (Some (mkRecorder inactive false false))
                   (exec (processAudio host page url' answer' isoNow')
                      (delivered data' s4))).
  { unfold exec at 1.
    rewrite (recorderStopTask_run host page data' url' answer' isoNow' s4 _ F1)
      by reflexivity.
    rewrite F2. reflexivity. }
  rewrite E5. clear E5.
  assert (D : delivered data' s4
              = set_audioChunks (audioChunks s4 ++ [data'])
                  (set_mediaRecorder
                     (Some (mkRecorder inactive false true)) s4))
    by (unfold delivered; rewrite F1; reflexivity).
  split.
  - change (requests (set_mediaRecorder ?x ?y)) with (requests y).
    rewrite processAudio_requests, D.
    unfold resolveTopic, selectedOption.
    cbn [audioChunks requests starterOptions customStarterValue
         set_audioChunks set_mediaRecorder].
    rewrite F3, F4, F5, F6. reflexivity.
  - change (audioBlob (set_mediaRecorder ?x ?y)) with (audioBlob y).
    rewrite processAudio_audioBlob, D.
    cbn [audioChunks set_audioChunks set_mediaRecorder].
    rewrite F3. reflexivity.
Qed.

Lemma cancelled_audio_is_never_sent_witness :
  requests
    (run Sample.host Sample.page
       [ ClickCancel;
         RecorderStopped "first" "blob:1" (Rejected (mkError "offline"))
           "2026-11-02T10:00:00.000Z";
         ClickRecord Stream 9000 9000;
         ClickStop;
         RecorderStopped "second" "blob:2" (Rejected (mkError "offline"))
           "2026-11-02T10:05:00.000Z" ]
       (Sample.recordingSince 0))
  = [mkRequest "second" "General reflection"].
Proof.
  apply (cancelled_audio_is_never_sent Sample.host Sample.page
           (Sample.recordingSince 0)).
  - reflexivity.
  - left. reflexivity.
Defined.

(* ================================================================== *)
(** * More on the journal store *)
(* ================================================================== *)

(** X12.  After [saveJournalEntry], [getJournalDays] returns the days it
    returned before, followed by the local day of the new entry's
    [date]. *)
Theorem saved_entry_day_is_listed
    (host : Host) (s : State) (entry : list (string * option JValue)) :
  storeAgrees s = true ->
  outcome (getJournalDays host) (exec (saveJournalEntry entry) s)
  = Normal (journalDays host s
            ++ [localDay host (field (stringifyObject entry) "date")]).
Proof.
  intros H.
  assert (H1 : storeAgrees (exec (saveJournalEntry entry) s) = true).
  { unfold storeAgrees in *.
    change (readEntries (exec (saveJournalEntry entry) s))
      with (readEntries s ++ [stringifyObject entry]).
    rewrite forallb_app, H. reflexivity. }
  unfold outcome. rewrite (getJournalDays_run host _ H1).
  cbn [fst]. unfold journalDays.
  change (readEntries (exec (saveJournalEntry entry) s))
    with (readEntries s ++ [stringifyObject entry]).
  rewrite map_app. reflexivity.
Qed.

Lemma saved_entry_day_is_listed_witness :
  outcome (getJournalDays Sample.host)
    (exec (saveJournalEntry
             [("date", Some (JStr "2026-11-05T07:00:00.000Z"));
              ("topic", None)])
       Sample.twoEntries)
  = Normal ["2026-11-02"; "2026-11-03"; "2026-11-05"].
Proof.
  vm_cast_no_check
    (saved_entry_day_is_listed Sample.host Sample.twoEntries
       [("date", Some (JStr "2026-11-05T07:00:00.000Z")); ("topic", None)]
       ltac:(vm_compute; reflexivity)).
Defined.

Section ExportFailures.

Variable host : Host.

Lemma exportEntry_state (entry : JValue) (s : State) :
  exists c : Completion JValue, exportEntry host entry s = (c, s).
Proof. destruct entry; eexists; reflexivity. Qed.

Lemma exportEntries_state (entries : list JValue) (s : State) :
  exists c : Completion (list JValue),
    mapM (exportEntry host) entries s = (c, s).
Proof.
  induction entries as [|e l IH]; [eexists; reflexivity|].
  cbn [mapM].
  destruct (exportEntry_state e s) as ([v|err] & E).
  - rewrite (bind_normal _ _ _ _ _ E).
    destruct IH as ([vs|err] & F).
    + rewrite (bind_normal _ _ _ _ _ F). eexists. reflexivity.
    + rewrite (bind_thrown _ _ _ _ _ F). eexists. reflexivity.
  - rewrite (bind_thrown _ _ _ _ _ E). eexists. reflexivity.
Qed.

Lemma exportEntries_null (entries : list JValue) (s : State) :
  In JNull entries ->
  exists e : Error, mapM (exportEntry host) entries s = (Thrown e, s).
Proof.
  induction entries as [|x l IH]; intros H; [contradiction|].
  cbn [mapM].
  destruct x as [|b|q|t|items|props];
    try (eexists; reflexivity);
    (destruct H as [H|H]; [discriminate H|]);
    destruct (IH H) as (e & E);
    match goal with
    | |- context [bind (exportEntry host ?x) _ s] =>
        rewrite (bind_normal _ _ s s _ (exportEntry_run host x s eq_refl))
    end;
    rewrite (bind_thrown _ _ _ _ _ E); eexists; reflexivity.
Qed.

(** The download and the alert of an export that goes through. *)
Lemma exportAllData_download (isoNow isoNow' : string) (s : State) :
  storeAgrees s = true ->
  readEntries s <> [] ->
  downloads (exec (exportAllData host isoNow isoNow') s)
  = downloads s
    ++ [mkDownload
          ("unposted-journal-" ++ Str.beforeChar "T"%char isoNow' ++ ".json")
          "application/json" (exportDocument isoNow (readEntries s))].
Proof.
  unfold storeAgrees. intros Hst Hne.
  unfold exec, exportAllData, exportData, tryCatch, bind, state.
  destruct (readEntries s) as [|e l] eqn:Hs; [contradiction|].
  cbn [length Nat.eqb fst snd].
  rewrite (exportEntries_run host (e :: l) s Hst).
  reflexivity.
Qed.

End ExportFailures.

(** X13.  [exportAllData] only reports and downloads: whether it finds
    the store empty, goes through or fails, the state afterwards is the one
    before with other alerts and downloads; the store, the session and the
    view are untouched. *)
Theorem export_changes_nothing_else
    (host : Host) (isoNow isoNow' : string) (s : State) :
  exists (shown : list string) (files : list Download),
    exec (exportAllData host isoNow isoNow') s
    = set_alerts shown (set_downloads files s).
Proof.
  unfold exec, exportAllData, exportData, tryCatch.
  rewrite (bind_normal _ _ s s s) by reflexivity.
  destruct (length (readEntries s) =? 0)%nat.
  - exists (alerts s ++ ["No journal entries to export."]), (downloads s).
    destruct s; reflexivity.
  - destruct (exportEntries_state host (readEntries s) s) as ([vs|err] & E).
    + rewrite (bind_normal _ _ s s
                 (stringifyObject
                    [("exportDate", Some (JStr isoNow));
                     ("totalEntries", Some (numberOf (length (readEntries s))));
                     ("appVersion", Some (JStr "1.0.0"));
                     ("entries", Some (JArr vs))]))
        by (rewrite (bind_normal _ _ _ _ _ E); reflexivity).
      eexists. eexists. cbn. reflexivity.
    + rewrite (bind_thrown _ _ s s err)
        by (rewrite (bind_thrown _ _ _ _ _ E); reflexivity).
      exists (alerts s ++ ["❌ Failed to export data. Please try again."]),
             (downloads s).
      destruct s; reflexivity.
Qed.

(** X14.  A store with a [null] entry cannot be exported: the read of
    [entry.date] throws, the [catch] reports the failure and no download is
    made. *)
Theorem export_of_null_entry_fails
    (host : Host) (isoNow isoNow' : string) (s : State) :
  In JNull (readEntries s) ->
  let s' := exec (exportAllData host isoNow isoNow') s in
  downloads s' = downloads s
  /\ alerts s' = alerts s ++ ["❌ Failed to export data. Please try again."].
Proof.
  intros H s'. subst s'.
  unfold exec, exportAllData, exportData, tryCatch.
  rewrite (bind_normal _ _ s s s) by reflexivity.
  destruct (readEntries s) as [|x l] eqn:Hs; [contradiction|].
  cbn [length Nat.eqb].
  destruct (exportEntries_null host (x :: l) s H) as (e & E).
  rewrite (bind_thrown _ _ s s e)
    by (rewrite (bind_thrown _ _ _ _ _ E); reflexivity).
  split; reflexivity.
Qed.

Lemma export_of_null_entry_fails_witness :
  let s := set_journalEntries (Some [JNull]) Sample.fresh in
  downloads (exec (exportAllData Sample.host "2026-11-04T09:00:00.000Z"
                     "2026-11-04T09:00:00.001Z") s)
  = [].
Proof.
  intros s.
  apply (export_of_null_entry_fails Sample.host "2026-11-04T09:00:00.000Z"
           "2026-11-04T09:00:00.001Z" s).
  left. reflexivity.
Defined.

Lemma beforeChar_app (c : ascii) (day rest : string) :
  hasChar c day = false ->
  Str.beforeChar c (day ++ String c rest) = day.
Proof.
  induction day as [|a day IH]; cbn; intros H.
  - rewrite Ascii.eqb_refl. reflexivity.
  - apply orb_false_iff in H. destruct H as [H1 H2].
    rewrite H1, (IH H2). reflexivity.
Qed.

(** X15.  The exported file is named after the day of the export: for a
    clock reading [day ++ "T" ++ time] the file is
    [unposted-journal-day.json], of type [application/json]. *)
Theorem export_file_is_named_by_day
    (host : Host) (isoNow day time : string) (s : State) :
  storeAgrees s = true ->
  readEntries s <> [] ->
  hasChar "T" day = false ->
  let s' := exec (exportAllData host isoNow (day ++ "T" ++ time)%string) s in
  exists d : Download,
    downloads s' = downloads s ++ [d]
    /\ fileName d = ("unposted-journal-" ++ day ++ ".json")%string
    /\ mimeType d = "application/json".
Proof.
  intros Hst Hne Hday s'. subst s'.
  rewrite (exportAllData_download host isoNow _ s Hst Hne).
  eexists. split; [reflexivity|]. cbn [fileName mimeType].
  change ("T" ++ time)%string with (String "T" time).
  rewrite (beforeChar_app "T" day time Hday). split; reflexivity.
Qed.

Lemma export_file_is_named_by_day_witness :
  storeAgrees Sample.twoEntries = true
  /\ readEntries Sample.twoEntries <> []
  /\ exists d : Download,
       downloads (exec (exportAllData Sample.host "2026-11-04T09:00:00.000Z"
                          "2026-11-04T09:00:00.001Z") Sample.twoEntries)
       = [d]
       /\ fileName d = "unposted-journal-2026-11-04.json"
       /\ mimeType d = "application/json".
Proof.
  split; [vm_compute; reflexivity|].
  split; [vm_compute; discriminate|].
  vm_cast_no_check
    (export_file_is_named_by_day Sample.host "2026-11-04T09:00:00.000Z"
       "2026-11-04" "09:00:00.001Z" Sample.twoEntries
       ltac:(vm_compute; reflexivity) ltac:(vm_compute; discriminate)
       ltac:(vm_compute; reflexivity)).
Defined.

(** X16.  [deleteAllData] asks in order: nothing on an empty store (it
    only says that there is nothing to delete), the second question only
    after a yes to the first; the success message and the landing view
    come only after two yeses. *)
Theorem deleteAll_asks_in_order
    (host : Host) (page : Page) (s : State) (answer answer' : bool) :
  let s' := exec (deleteAllData host page answer answer') s in
  let empty := (length (readEntries s) =? 0)%nat in
  length (confirms s')
  = (length (confirms s)
     + (if empty then 0 else if answer then 2 else 1))%nat
  /\ alerts s'
     = alerts s
       ++ (if empty then ["No data to delete."]
           else if answer && answer'
                then ["✅ All journal data has been deleted successfully."]
                else [])
  /\ view s'
     = (if negb empty && answer && answer'
        then (if hasView page landing then Some landing else None)
        else view s).
Proof.
  intros s' empty. subst s' empty.
  unfold exec, deleteAllData, initCalendar, getJournalDays, readEntries,
    confirm, alert, showView, tryCatch, bind, state, update, ret, when, skip.
  destruct (journalEntries s) as [[|e l]|] eqn:Hs;
    destruct answer, answer'; cbn; rewrite ?Hs; cbn;
    try (destruct (calendarView page); cbn; rewrite ?Hs);
    rewrite ?length_app, ?app_nil_r; cbn;
    repeat split; try reflexivity; lia.
Qed.

(* ================================================================== *)
(** * Starter options and the calendar grid *)
(* ================================================================== *)

Lemma nth_error_deselect (l : list StarterOption) (j : nat) :
  nth_error (map deselect l) j
  = option_map (fun o => mkStarter (textContent o) false) (nth_error l j).
Proof. apply nth_error_map. Qed.

Lemma nth_error_selectNth (l : list StarterOption) :
  forall i j : nat,
    (i < length l)%nat ->
    nth_error (selectNth i (map deselect l)) j
    = option_map (fun o => mkStarter (textContent o) (j =? i)%nat)
        (nth_error l j).
Proof.
  induction l as [|a l IH]; intros i j H; cbn in H; [lia|].
  destruct i as [|i], j as [|j]; cbn [selectNth map nth_error option_map
                                       Nat.eqb deselect textContent].
  - reflexivity.
  - apply nth_error_deselect.
  - reflexivity.
  - apply IH. lia.
Qed.

(** X17.  A click on a starter option leaves that option, and no other,
    selected, keeps every option's text, and empties the free-text field
    when the page has one. *)
Theorem clickStarter_selects_one (page : Page) (s : State) (i : nat) :
  (i < length (starterOptions s))%nat ->
  let s' := exec (clickStarter page i) s in
  (forall j : nat,
     nth_error (starterOptions s') j
     = option_map (fun o => mkStarter (textContent o) (j =? i)%nat)
         (nth_error (starterOptions s) j))
  /\ customStarterValue s'
     = (if customStarter page then "" else customStarterValue s).
Proof.
  intros H s'. subst s'.
  unfold exec, clickStarter, bind, state.
  apply Nat.ltb_lt in H. rewrite H. apply Nat.ltb_lt in H.
  destruct (customStarter page); cbn;
    (split; [intros j; apply nth_error_selectNth, H | reflexivity]).
Qed.

Lemma clickStarter_selects_one_witness :
  map selectedClass
    (starterOptions (exec (clickStarter Sample.page 1)
                       (exec (clickStarter Sample.page 0) Sample.fresh)))
  = [false; true].
Proof.
  pose proof (clickStarter_selects_one Sample.page
                (exec (clickStarter Sample.page 0) Sample.fresh) 1
                ltac:(cbn; lia)) as (H & _).
  pose proof (H 0%nat) as H0. pose proof (H 1%nat) as H1.
  pose proof (H 2%nat) as H2.
  destruct (starterOptions
              (exec (clickStarter Sample.page 1)
                 (exec (clickStarter Sample.page 0) Sample.fresh)))
    as [|a [|b [|c l]]]; cbn in H0, H1, H2; try discriminate.
  injection H0 as ->. injection H1 as ->. reflexivity.
Defined.

Lemma reachable_consistent_witness :
  consistent Sample.twoEntries = true.
Proof.
  apply (reachable_consistent Sample.host Sample.page).
  exists (Some landing), "00:00", faPause,
    [mkStarter "Gratitude" false; mkStarter "A hard moment" false], None.
  eexists. split; [reflexivity|]. reflexivity.
Defined.

(** X19.  In the calendar grid the cell of day [d] comes after the seven
    headers and one empty cell for each weekday before the first of the
    month, so in the column of its weekday; it is marked exactly when
    [getJournalDays] has its [YYYY-MM-DD] key. *)
Theorem calendar_day_position
    (year month firstDayOfMonth lastDayOfMonth : nat)
    (journalDays : list string) (d : nat) :
  (1 <= d <= lastDayOfMonth)%nat ->
  let cells := calendarCells year month firstDayOfMonth lastDayOfMonth
                 journalDays in
  length cells = (7 + firstDayOfMonth + lastDayOfMonth)%nat
  /\ nth_error cells (7 + firstDayOfMonth + (d - 1))
     = Some (DayCell d (includes journalDays (dateStr year month d)))
  /\ (includes journalDays (dateStr year month d) = true
      <-> In (dateStr year month d) journalDays)
  /\ (forall i : nat,
        (i < firstDayOfMonth)%nat -> nth_error cells (7 + i) = Some EmptyCell).
Proof.
  intros H cells. subst cells. unfold calendarCells.
  repeat split.
  - rewrite !length_app, !length_map, repeat_length, length_seq. reflexivity.
  - rewrite nth_error_app2 by (cbn; lia).
    rewrite nth_error_app2 by (rewrite repeat_length; cbn; lia).
    rewrite repeat_length. cbn [length map dayNames].
    replace (7 + firstDayOfMonth + (d - 1) - 7 - firstDayOfMonth)%nat
      with (d - 1)%nat by lia.
    rewrite nth_error_map.
    replace (nth_error (seq 1 lastDayOfMonth) (d - 1)) with (Some d);
      [reflexivity|].
    symmetry. rewrite nth_error_nth' with (d := 0%nat)
      by (rewrite length_seq; lia).
    rewrite seq_nth by lia. f_equal. lia.
  - unfold includes. rewrite existsb_exists.
    intros (x & Hx & E). apply String.eqb_eq in E. subst x. exact Hx.
  - unfold includes. rewrite existsb_exists.
    intros Hx. exists (dateStr year month d). split; [exact Hx|].
    apply String.eqb_refl.
  - intros i Hi.
    rewrite nth_error_app2 by (cbn; lia).
    cbn [length map dayNames].
    replace (7 + i - 7)%nat with i by lia.
    rewrite nth_error_app1 by (rewrite repeat_length; exact Hi).
    apply nth_error_repeat, Hi.
Qed.

Lemma calendar_day_position_witness :
  nth_error (calendarCells 2026 10 0 30 ["2026-11-02"; "2026-11-03"])
    (7 + 0 + (3 - 1))
  = Some (DayCell 3 true).
Proof.
  apply (proj1 (proj2 (calendar_day_position 2026 10 0 30
                         ["2026-11-02"; "2026-11-03"] 3 ltac:(lia)))).
Defined.

(* ================================================================== *)
(** * Failed requests, and events outside the recording *)
(* ================================================================== *)

(** X20.  A response without a success status whose body is a JSON
    object: the alert carries the object's [error] when that is a
    non-empty string, and [HTTP error! status: N] when the object has no
    truthy [error]; either way the landing view is shown and the store is
    what it was. *)
Theorem http_error_message_rule
    (host : Host) (page : Page) (s : State) (url : string) (status : nat)
    (props : list (string * JValue)) (isoNow : string) :
  ok status = false ->
  hasView page landing = true ->
  let s' := exec (processAudio host page url
                    (Responded status (Json (JObj props))) isoNow) s in
  view s' = Some landing
  /\ journalEntries s' = journalEntries s
  /\ (forall text : string,
        Js.lookup "error" props = Some (JStr text) ->
        text <> "" ->
        alerts s' = alerts s ++ [processAlert text])
  /\ (Js.truthy (Js.lookup "error" props) = false ->
      alerts s'
      = alerts s
        ++ [processAlert ("HTTP error! status: " ++ Str.ofNat status)]).
Proof.
  intros Hok Hv s'.
  split; [|split; [|split]].
  - subst s'. rewrite processAudio_http_error by exact Hok.
    apply failed_view, Hv.
  - subst s'. rewrite processAudio_http_error by exact Hok. reflexivity.
  - intros text Ht Hne. subst s'.
    rewrite (http_error_structured_message host page s url status props text
               isoNow Hok Ht Hne).
    reflexivity.
  - intros Ht. subst s'.
    rewrite (http_error_status_message host page s url status props isoNow
               Hok Ht).
    reflexivity.
Qed.

Lemma http_error_message_rule_witness :
  alerts (exec (processAudio Sample.host Sample.page "blob:1"
                  (Responded 500 (Json (JObj [("error", JStr "No speech found")])))
                  "2026-11-02T10:00:00.000Z") Sample.fresh)
  = [processAlert "No speech found"].
Proof.
  apply (proj1 (proj2 (proj2 (http_error_message_rule Sample.host Sample.page
                                Sample.fresh "blob:1" 500
                                [("error", JStr "No speech found")]
                                "2026-11-02T10:00:00.000Z" eq_refl eq_refl)))
           "No speech found" eq_refl).
  discriminate.
Defined.

#[local] Instance recordingUntouched_preorder : PreOrder recordingUntouched.
Proof.
  split.
  - intros s. unfold recordingUntouched. repeat split; reflexivity.
  - intros s1 s2 s3 A B. unfold recordingUntouched in *.
    repeat match goal with H : _ /\ _ |- _ => destruct H end.
    repeat split; congruence.
Qed.

Ltac untouched :=
  repeat first
    [ frame_step
    | match goal with
      | |- recordingUntouched ?s _ =>
          unfold recordingUntouched; cbn; repeat split; reflexivity
      end ].

(** X21.  The events of the rest of the page (timer ticks, topic
    selection, navigation, export, delete) leave the recording session
    alone: the session state, the recorder, the chunks and the elapsed
    time at any instant are the same after them. *)
Theorem other_events_leave_the_recording_alone
    (host : Host) (page : Page) (s : State) (e : Event) (now : Z) :
  sessionEvent e = false ->
  let s' := step host page s e in
  sessionState s' = sessionState s
  /\ elapsed now s' = elapsed now s
  /\ mediaRecorder s' = mediaRecorder s
  /\ audioChunks s' = audioChunks s.
Proof.
  intros He s'.
  assert (K : recordingUntouched s s').
  { subst s'. unfold step.
    destruct e; try discriminate He; cbn [handle].
    - assert (F : frames recordingUntouched
                    (s0 <- state ;;
                     when (timerInterval s0) (updateTimer page now0)))
        by (unfold updateTimer; untouched).
      apply F.
    - assert (F : frames recordingUntouched (clickStarter page i))
        by (unfold clickStarter; untouched).
      apply F.
    - assert (F : frames recordingUntouched (inputCustomStarter page value))
        by (unfold inputCustomStarter; untouched).
      apply F.
    - assert (F : frames recordingUntouched (showView page landing))
        by (unfold showView; untouched).
      apply F.
    - assert (F : frames recordingUntouched (showView page settings))
        by (unfold showView; untouched).
      apply F.
    - assert (F : frames recordingUntouched (showView page landing))
        by (unfold showView; untouched).
      apply F.
    - assert (F : frames recordingUntouched
                    (exportAllData host isoNow isoNow'))
        by (unfold exportAllData, exportData, exportEntry, alert; untouched).
      apply F.
    - assert (F : frames recordingUntouched
                    (deleteAllData host page answer answer'))
        by (unfold deleteAllData, confirm, initCalendar, getJournalDays,
              alert, showView; untouched).
      apply F. }
  destruct K as (K1 & K2 & K3 & K4 & K5 & K6 & K7 & K8).
  unfold sessionState, stopPending, elapsed.
  rewrite K1, K3, K4, K6, K7, K8. repeat split; assumption.
Qed.

Lemma other_events_leave_the_recording_alone_witness :
  sessionState (step Sample.host Sample.page (Sample.pausedSince 0 2500)
                  (ClickDelete true true))
  = Paused.
Proof.
  apply (other_events_leave_the_recording_alone Sample.host Sample.page
           (Sample.pausedSince 0 2500) (ClickDelete true true) 0%Z).
  reflexivity.
Defined.
